(** * Performance traces of the Firebase JS SDK

    A shallow embedding of [packages/performance/src/resources/trace.ts]:
    the [Trace] class with its three-state life cycle, its custom metrics and
    attributes, and the two static factories.

    JavaScript numbers are IEEE 754 binary64 values, which is what Rocq's
    primitive [float] is, so arithmetic is the language's own.  Objects used
    as dictionaries are finite maps over their own string keys.  What a
    plain object inherits from [Object.prototype] is not in them: the
    statements that say what is read or stored under a name are made for
    the names where this makes no difference ([own_name], and for a store
    every name but [__proto__]).  The attribute dictionary is reached
    through a reference into a heap, because the class hands copies of it
    out and replaces it; the [this] object is threaded through every method
    together with the rest of the world, and survives a [throw]. *)

From Stdlib Require Import ZArith PrimFloat FloatOps SpecFloat FloatAxioms Uint63.
From stdpp Require Import gmap strings list pretty.

Set Warnings "-inexact-float".

(** ** ECMAScript numbers and values *)

Abbreviation number := float (only parsing).

Definition float_of_Z (z : Z) : number :=
  if (z <? 0)%Z
  then (- of_uint63 (Uint63.of_Z (- z)))%float
  else of_uint63 (Uint63.of_Z z).

(** [Math.floor]: the greatest integral number not above [x]; NaN, the
    infinities and both zeros are returned as they are.  A finite double
    with a non-negative exponent is integral already; below that the
    magnitude is under 2^53 and the quotient is exact. *)
Definition Math_floor (x : number) : number :=
  match Prim2SF x with
  | S754_finite s m e =>
      if (0 <=? e)%Z then x
      else float_of_Z ((if s then Z.neg m else Z.pos m) / 2 ^ (- e))
  | _ => x
  end.

(** [Math.trunc]: rounding toward zero, keeping the sign of a zero result. *)
Definition Math_trunc (x : number) : number :=
  match Prim2SF x with
  | S754_finite s m e =>
      if (0 <=? e)%Z then x
      else
        let q := of_uint63 (Uint63.of_Z (Z.pos m / 2 ^ (- e))) in
        if s then (- q)%float else q
  | _ => x
  end.

(** The global [isNaN] on a number. *)
Definition isNaN (x : number) : bool := PrimFloat.is_nan x.

(** [Number.isInteger]: finite and equal to its own floor. *)
Definition Number_isInteger (x : number) : bool :=
  PrimFloat.is_finite x && PrimFloat.eqb (Math_floor x) x.

(** ToBoolean on a number: zero (of either sign) and NaN are falsy. *)
Definition truthy_number (x : number) : bool :=
  negb (PrimFloat.is_zero x || PrimFloat.is_nan x).

(** ToBoolean on a string: only the empty string is falsy. *)
Definition truthy_string (s : string) : bool :=
  negb (String.eqb s "").

(** ToBoolean on a possibly undefined string. *)
Definition truthy_opt_string (s : option string) : bool :=
  match s with
  | Some s => truthy_string s
  | None => false
  end.

(** The primitive values a dictionary handed over by a caller may hold. *)
Inductive JsValue :=
| JNumber (n : number)
| JString (s : string)
| JBoolean (b : bool)
| JNull
| JUndefined.

(** The conversions between strings and numbers are the language's, not the
    repository's; they are taken as they come. *)
Class Builtins := {
  StringToNumber : string -> number;
  NumberToString : number -> string
}.

(** ** Imports of [trace.ts] that live in other files *)

(** The constants of [../constants]. *)
Class Constants := {
  TRACE_START_MARK_PREFIX : string;
  TRACE_STOP_MARK_PREFIX : string;
  TRACE_MEASURE_PREFIX : string;
  OOB_TRACE_PAGE_LOAD_PREFIX : string;
  FIRST_PAINT_COUNTER_NAME : string;
  FIRST_CONTENTFUL_PAINT_COUNTER_NAME : string;
  FIRST_INPUT_DELAY_COUNTER_NAME : string
}.

Record PerformanceEntry := mkEntry {
  entry_name : string;
  entry_startTime : number;
  entry_duration : number
}.

Record PerformanceNavigationTiming := mkNavigationTiming {
  nav_duration : number;
  domInteractive : number;
  domContentLoadedEventEnd : number;
  loadEventEnd : number
}.

(** The [Api] singleton of [../services/api_service], as an interface over
    its own state.  A mark or measure name is whatever the field of the
    trace holds, which is [undefined] for an auto trace. *)
Class Api (ApiState : Type) := {
  api_mark : option string -> ApiState -> ApiState;
  api_measure : option string -> option string -> option string ->
                ApiState -> ApiState;
  api_getEntriesByName : option string -> ApiState ->
                         option (list PerformanceEntry);
  api_getTimeOrigin : ApiState -> number;
  api_getUrl : ApiState -> option string
}.

(** Modelled from the spec: the errors of [../utils/errors], a file the
    sources do not include.  An error is of one of two kinds and carries
    the name of the trace. *)
Inductive ErrorCode := TRACE_STARTED_BEFORE | TRACE_STOPPED_BEFORE.

Record FirebaseError := mkError {
  code : ErrorCode;
  traceName : string
}.

Definition ERROR_FACTORY_create (c : ErrorCode) (traceName : string)
  : FirebaseError :=
  {| code := c; traceName := traceName |}.

(** ** The data of a trace *)

Inductive TraceState := UNINITIALIZED | RUNNING | TERMINATED.

(** The values of the [const enum]. *)
Definition TraceState_value (s : TraceState) : Z :=
  match s with
  | UNINITIALIZED => 1
  | RUNNING => 2
  | TERMINATED => 3
  end.

#[global] Instance TraceState_eq_dec : EqDecision TraceState.
Proof. solve_decision. Defined.

Definition loc := positive.

Record Trace := mkTrace {
  name : string;
  isAuto : bool;
  state : TraceState;
  startTimeUs : option number;
  durationUs : option number;
  customAttributes : loc;
  counters : gmap string number;
  randomId : number;
  traceStartMark : option string;
  traceStopMark : option string;
  traceMeasure : option string
}.

Definition set_state (s : TraceState) (t : Trace) : Trace :=
  mkTrace (name t) (isAuto t) s (startTimeUs t) (durationUs t)
          (customAttributes t) (counters t) (randomId t)
          (traceStartMark t) (traceStopMark t) (traceMeasure t).

Definition set_startTimeUs (v : option number) (t : Trace) : Trace :=
  mkTrace (name t) (isAuto t) (state t) v (durationUs t)
          (customAttributes t) (counters t) (randomId t)
          (traceStartMark t) (traceStopMark t) (traceMeasure t).

Definition set_durationUs (v : option number) (t : Trace) : Trace :=
  mkTrace (name t) (isAuto t) (state t) (startTimeUs t) v
          (customAttributes t) (counters t) (randomId t)
          (traceStartMark t) (traceStopMark t) (traceMeasure t).

Definition set_customAttributes (l : loc) (t : Trace) : Trace :=
  mkTrace (name t) (isAuto t) (state t) (startTimeUs t) (durationUs t)
          l (counters t) (randomId t)
          (traceStartMark t) (traceStopMark t) (traceMeasure t).

Definition set_counters (cs : gmap string number) (t : Trace) : Trace :=
  mkTrace (name t) (isAuto t) (state t) (startTimeUs t) (durationUs t)
          (customAttributes t) cs (randomId t)
          (traceStartMark t) (traceStopMark t) (traceMeasure t).

(** The optional third argument of [record]. *)
Record RecordOptions := mkOptions {
  metrics : option (gmap string JsValue);
  attributes : option loc
}.

(** How a call ends: normally with a value, or by throwing. *)
Inductive Completion (A : Type) :=
| Normal (a : A)
| Throw (e : FirebaseError).
Arguments Normal {A} a.
Arguments Throw {A} e.

(** Own keys of a dictionary, and reading one of its properties. *)
Definition Object_keys {V} (o : gmap string V) : list string :=
  (map_to_list o).*1.

Definition js_get (o : gmap string JsValue) (k : string) : JsValue :=
  default JUndefined (o !! k).

Section TraceModel.
Context {builtins : Builtins} {constants : Constants}.
Context {ApiState : Type} {api_impl : Api ApiState}.

(** ToNumber, as applied by [Number(...)] and by [Math.floor(...)]. *)
Definition ToNumber (v : JsValue) : number :=
  match v with
  | JNumber n => n
  | JString s => StringToNumber s
  | JBoolean b => if b then 1%float else 0%float
  | JNull => 0%float
  | JUndefined => nan
  end.

(** Everything a method can touch besides [this]: the [Api] singleton,
    the heap of attribute dictionaries, what the reporter has received,
    and the outcomes of [Math.random()] still to come. *)
Record World := mkWorld {
  api : ApiState;
  heap : gmap loc (gmap string string);
  reports : list Trace;
  random_seq : nat -> number;
  random_pos : nat
}.

Definition set_api (a : ApiState) (w : World) : World :=
  mkWorld a (heap w) (reports w) (random_seq w) (random_pos w).
Definition set_heap (h : gmap loc (gmap string string)) (w : World) : World :=
  mkWorld (api w) h (reports w) (random_seq w) (random_pos w).
Definition set_reports (r : list Trace) (w : World) : World :=
  mkWorld (api w) (heap w) r (random_seq w) (random_pos w).
Definition set_random_pos (n : nat) (w : World) : World :=
  mkWorld (api w) (heap w) (reports w) (random_seq w) n.

(** [Math.random()]: the next outcome. *)
Definition Math_random (w : World) : number * World :=
  (random_seq w (random_pos w), set_random_pos (S (random_pos w)) w).

Record Config := mkConfig {
  this : Trace;
  world : World
}.

(** A method body: it runs on [this] and the world, and what it did to
    them stays done when it throws. *)
Definition Method (A : Type) : Type := Config -> Completion A * Config.

#[global] Instance Method_ret : MRet Method :=
  fun A a c => (Normal a, c).

#[global] Instance Method_bind : MBind Method :=
  fun A B k m c =>
    match m c with
    | (Normal a, c') => k a c'
    | (Throw e, c') => (Throw e, c')
    end.

Definition throw {A} (e : FirebaseError) : Method A :=
  fun c => (Throw e, c).

Definition read {A} (f : Trace -> A) : Method A :=
  fun c => (Normal (f (this c)), c).

Definition update (f : Trace -> Trace) : Method unit :=
  fun c => (Normal tt, mkConfig (f (this c)) (world c)).

Definition api_get {A} (f : ApiState -> A) : Method A :=
  fun c => (Normal (f (api (world c))), c).

Definition api_do (f : ApiState -> ApiState) : Method unit :=
  fun c => (Normal tt,
            mkConfig (this c) (set_api (f (api (world c))) (world c))).

(** The content of the dictionary a reference points to. *)
Definition deref (h : gmap loc (gmap string string)) (l : loc)
  : gmap string string :=
  default ∅ (h !! l).

Definition heap_load (l : loc) : Method (gmap string string) :=
  fun c => (Normal (deref (heap (world c)) l), c).

Definition heap_store (l : loc) (o : gmap string string) : Method unit :=
  fun c => (Normal tt,
            mkConfig (this c)
                     (set_heap (<[l := o]> (heap (world c))) (world c))).

(** An object literal: a new dictionary at an unused reference. *)
Definition heap_alloc (o : gmap string string) : Method loc :=
  fun c =>
    let l := fresh (dom (heap (world c))) in
    (Normal l,
     mkConfig (this c) (set_heap (<[l := o]> (heap (world c))) (world c))).

(** Modelled from the spec: [logTrace] of [../services/perf_logger], whose
    file is not part of the sources.  The reporter "accepts a finished
    Trace for downstream logging"; it is kept as the list of traces it was
    handed, each as it was at the call. *)
Definition logTrace (t : Trace) : Method unit :=
  fun c => (Normal tt,
            mkConfig (this c)
                     (set_reports (reports (world c) ++ [t]) (world c))).

(** [for (const x of xs) body]. *)
Fixpoint for_of {A} (xs : list A) (body : A -> Method unit) : Method unit :=
  match xs with
  | [] => mret tt
  | x :: xs' => body x;; for_of xs' body
  end.

(** *** Methods of [Trace] *)

Definition calculateTraceMetrics : Method unit :=
  m ← read traceMeasure;
  perfMeasureEntries ← api_get (api_getEntriesByName m);
  let perfMeasureEntry := perfMeasureEntries ≫= head in
  match perfMeasureEntry with
  | Some e =>
      update (set_durationUs
                (Some (Math_floor (entry_duration e * 1000)%float)));;
      origin ← api_get api_getTimeOrigin;
      update (set_startTimeUs
                (Some (Math_floor
                         ((entry_startTime e + origin) * 1000)%float)))
  | None => mret tt
  end.

Definition start : Method unit :=
  s ← read state;
  if negb (bool_decide (s = UNINITIALIZED)) then
    n ← read name;
    throw (ERROR_FACTORY_create TRACE_STARTED_BEFORE n)
  else
    m ← read traceStartMark;
    api_do (api_mark m);;
    update (set_state RUNNING).

Definition stop : Method unit :=
  s ← read state;
  if negb (bool_decide (s = RUNNING)) then
    n ← read name;
    throw (ERROR_FACTORY_create TRACE_STOPPED_BEFORE n)
  else
    update (set_state TERMINATED);;
    m ← read traceStopMark;
    api_do (api_mark m);;
    measure ← read traceMeasure;
    startMark ← read traceStartMark;
    stopMark ← read traceStopMark;
    api_do (api_measure measure startMark stopMark);;
    calculateTraceMetrics;;
    t ← read id;
    logTrace t.

Definition record (startTime duration : number)
           (options : option RecordOptions) : Method unit :=
  update (set_durationUs (Some (Math_floor (duration * 1000)%float)));;
  update (set_startTimeUs (Some (Math_floor (startTime * 1000)%float)));;
  match options ≫= attributes with
  | Some a =>
      o ← heap_load a;
      l ← heap_alloc o;
      update (set_customAttributes l)
  | None => mret tt
  end;;
  match options ≫= metrics with
  | Some ms =>
      for_of (Object_keys ms) (fun metric =>
        if negb (isNaN (ToNumber (js_get ms metric))) then
          cs ← read counters;
          update (set_counters
                    (<[metric := Math_floor (ToNumber (js_get ms metric))]>
                       cs))
        else mret tt)
  | None => mret tt
  end;;
  t ← read id;
  logTrace t.

(** [num] is optional and defaults to 1.  [undefined + num] is NaN. *)
Definition incrementMetric (counter : string) (num : option number)
  : Method unit :=
  let num := default 1%float num in
  cs ← read counters;
  match cs !! counter with
  | None => update (set_counters (<[counter := 0%float]> cs))
  | Some _ => mret tt
  end;;
  cs ← read counters;
  update (set_counters
            (<[counter := (default nan (cs !! counter) + num)%float]> cs)).

Definition putMetric (counter : string) (num : number) : Method unit :=
  cs ← read counters;
  update (set_counters (<[counter := num]> cs)).

Definition getMetric (counter : string) : Method number :=
  cs ← read counters;
  mret (match cs !! counter with
        | Some v => if truthy_number v then v else 0%float
        | None => 0%float
        end).

Definition putAttribute (attr value : string) : Method unit :=
  l ← read customAttributes;
  o ← heap_load l;
  heap_store l (<[attr := value]> o).

Definition getAttribute (attr : string) : Method (option string) :=
  l ← read customAttributes;
  o ← heap_load l;
  mret (o !! attr).

Definition removeAttribute (attr : string) : Method unit :=
  l ← read customAttributes;
  o ← heap_load l;
  match o !! attr with
  | None => mret tt
  | Some _ => heap_store l (delete attr o)
  end.

Definition getAttributes : Method loc :=
  l ← read customAttributes;
  o ← heap_load l;
  heap_alloc o.

Definition setStartTime (startTime : number) : Method unit :=
  update (set_startTimeUs (Some startTime)).

Definition setDuration (duration : number) : Method unit :=
  update (set_durationUs (Some duration)).

(** *** The constructor *)

Definition set_marks (startMark stopMark measure : option string) (t : Trace)
  : Trace :=
  mkTrace (name t) (isAuto t) (state t) (startTimeUs t) (durationUs t)
          (customAttributes t) (counters t) (randomId t)
          startMark stopMark measure.

(** [new Trace(name, isAuto = false, traceMeasureName?)].  The field
    initialisers run first: both dictionaries start empty and [randomId] is
    drawn.  Nothing but [calculateTraceMetrics] touches the two times, so
    they stay undefined until then. *)
Definition new_Trace (name : string) (isAuto : option bool)
           (traceMeasureName : option string) (w : World) : Trace * World :=
  let isAuto := default false isAuto in
  let l := fresh (dom (heap w)) in
  let w := set_heap (<[l := ∅]> (heap w)) w in
  let '(r, w) := Math_random w in
  let randomId := Math_floor (r * 1000000)%float in
  let t := mkTrace name isAuto UNINITIALIZED None None l ∅ randomId
                   None None None in
  if negb isAuto then
    let t :=
      set_marks
        (Some (TRACE_START_MARK_PREFIX ++ "-" ++ NumberToString randomId
                 ++ "-" ++ name)%string)
        (Some (TRACE_STOP_MARK_PREFIX ++ "-" ++ NumberToString randomId
                 ++ "-" ++ name)%string)
        (if truthy_opt_string traceMeasureName then traceMeasureName
         else Some (TRACE_MEASURE_PREFIX ++ "-" ++ NumberToString randomId
                      ++ "-" ++ name)%string)
        t in
    if truthy_opt_string traceMeasureName then
      let c := (calculateTraceMetrics (mkConfig t w)).2 in
      (this c, world c)
    else (t, w)
  else (t, w).

(** *** Static factories *)

Definition FIRST_PAINT : string := "first-paint".
Definition FIRST_CONTENTFUL_PAINT : string := "first-contentful-paint".

(** What [createOobTrace] does to the trace it has built, [logTrace]
    included. *)
Definition createOobTrace_body
           (navigationTimings : option (list PerformanceNavigationTiming))
           (paintTimings : option (list PerformanceEntry))
           (firstInputDelay : option number) : Method unit :=
  origin ← api_get api_getTimeOrigin;
  let timeOriginUs := Math_floor (origin * 1000)%float in
  setStartTime timeOriginUs;;
  match navigationTimings ≫= head with
  | Some nav =>
      setDuration (Math_floor (nav_duration nav * 1000)%float);;
      incrementMetric "domInteractive"
        (Some (Math_floor (domInteractive nav * 1000)%float));;
      incrementMetric "domContentLoadedEventEnd"
        (Some (Math_floor (domContentLoadedEventEnd nav * 1000)%float));;
      incrementMetric "loadEventEnd"
        (Some (Math_floor (loadEventEnd nav * 1000)%float))
  | None => mret tt
  end;;
  match paintTimings with
  | Some paintTimings =>
      let firstPaint :=
        List.find (fun paintObject =>
                     String.eqb (entry_name paintObject) FIRST_PAINT)
                  paintTimings in
      match firstPaint with
      | Some fp =>
          if truthy_number (entry_startTime fp) then
            incrementMetric FIRST_PAINT_COUNTER_NAME
              (Some (Math_floor (entry_startTime fp * 1000)%float))
          else mret tt
      | None => mret tt
      end;;
      let firstContentfulPaint :=
        List.find (fun paintObject =>
                     String.eqb (entry_name paintObject)
                                FIRST_CONTENTFUL_PAINT)
                  paintTimings in
      match firstContentfulPaint with
      | Some fcp =>
          if truthy_number (entry_startTime fcp) then
            incrementMetric FIRST_CONTENTFUL_PAINT_COUNTER_NAME
              (Some (Math_floor (entry_startTime fcp * 1000)%float))
          else mret tt
      | None => mret tt
      end;;
      match firstInputDelay with
      | Some fid =>
          if truthy_number fid then
            incrementMetric FIRST_INPUT_DELAY_COUNTER_NAME
              (Some (Math_floor (fid * 1000)%float))
          else mret tt
      | None => mret tt
      end
  | None => mret tt
  end;;
  t ← read id;
  logTrace t.

Definition createOobTrace
           (navigationTimings : option (list PerformanceNavigationTiming))
           (paintTimings : option (list PerformanceEntry))
           (firstInputDelay : option number) (w : World) : World :=
  let route := api_getUrl (api w) in
  if negb (truthy_opt_string route) then w
  else
    let '(trace, w) :=
      new_Trace (OOB_TRACE_PAGE_LOAD_PREFIX ++ default "" route)%string
                (Some true) None w in
    world (createOobTrace_body navigationTimings paintTimings
                               firstInputDelay (mkConfig trace w)).2.

Definition createUserTimingTrace (measureName : string) (w : World) : World :=
  let '(trace, w) := new_Trace measureName (Some false) (Some measureName) w in
  world (logTrace trace (mkConfig trace w)).2.

(** *** Callers *)

(** One call on a trace, as client code makes it. *)
Inductive Call :=
| CallStart
| CallStop
| CallRecord (startTime duration : number) (options : option RecordOptions)
| CallIncrementMetric (counter : string) (num : option number)
| CallPutMetric (counter : string) (num : number)
| CallGetMetric (counter : string)
| CallPutAttribute (attr value : string)
| CallGetAttribute (attr : string)
| CallRemoveAttribute (attr : string)
| CallGetAttributes.

(** The call with its result dropped. *)
Definition invoke (call : Call) : Method unit :=
  match call with
  | CallStart => start
  | CallStop => stop
  | CallRecord startTime duration options => record startTime duration options
  | CallIncrementMetric counter num => incrementMetric counter num
  | CallPutMetric counter num => putMetric counter num
  | CallGetMetric counter => getMetric counter;; mret tt
  | CallPutAttribute attr value => putAttribute attr value
  | CallGetAttribute attr => getAttribute attr;; mret tt
  | CallRemoveAttribute attr => removeAttribute attr
  | CallGetAttributes => getAttributes;; mret tt
  end.

(** A client that makes the calls one after the other and catches what
    they throw. *)
Fixpoint run_calls (calls : list Call) (c : Config) : Config :=
  match calls with
  | [] => c
  | call :: calls' => run_calls calls' (invoke call c).2
  end.

(** The counters the loop of [record] leaves behind after the keys [ks]. *)
Definition store_metrics (ms : gmap string JsValue) (ks : list string)
           (cs : gmap string number) : gmap string number :=
  foldl (fun cs metric =>
           if negb (isNaN (ToNumber (js_get ms metric)))
           then <[metric := Math_floor (ToNumber (js_get ms metric))]> cs
           else cs)
        cs ks.

(** The clock as [stop] leaves it: stop mark set, interval measured. *)
Definition api_after_stop (t : Trace) (a : ApiState) : ApiState :=
  api_measure (traceMeasure t) (traceStartMark t) (traceStopMark t)
              (api_mark (traceStopMark t) a).

(** A method body that, started where [P] holds, ends normally where [Q]
    holds of its result. *)
Definition hoare {A} (P : Config -> Prop) (m : Method A)
           (Q : A -> Config -> Prop) : Prop :=
  forall c, P c -> exists a c', m c = (Normal a, c') /\ Q a c'.

(** The trace has no counter [k] so far, and the reporter has received
    [r]. *)
Definition no_counter_yet (k : string) (r : list Trace) (c : Config) : Prop :=
  counters (this c) !! k = None /\ reports (world c) = r.

(** Every reference a configuration holds points into its heap. *)
Definition heap_wf (c : Config) : Prop :=
  customAttributes (this c) ∈ dom (heap (world c)).
End TraceModel.

(** ** A host to run the model on

    The examples further down need the interfaces filled in.  None of what
    follows is the repository's: the constants are sample values, the
    conversions cover the strings and numbers the examples use, and the
    clock is a simulated one. *)

Definition sample_constants : Constants := {|
  TRACE_START_MARK_PREFIX := "FB-PERF-TRACE-START";
  TRACE_STOP_MARK_PREFIX := "FB-PERF-TRACE-STOP";
  TRACE_MEASURE_PREFIX := "FB-PERF-TRACE-MEASURE";
  OOB_TRACE_PAGE_LOAD_PREFIX := "_wt_";
  FIRST_PAINT_COUNTER_NAME := "_fp";
  FIRST_CONTENTFUL_PAINT_COUNTER_NAME := "_fcp";
  FIRST_INPUT_DELAY_COUNTER_NAME := "_fid"
|}.

Fixpoint digits_value (s : string) (acc : N) : option N :=
  match s with
  | EmptyString => Some acc
  | String a s' =>
      let n := Ascii.N_of_ascii a in
      if ((48 <=? n) && (n <=? 57))%N
      then digits_value s' (10 * acc + (n - 48))%N
      else None
  end.

(** The integer a finite number is, rounding toward zero. *)
Definition Z_of_number (x : number) : Z :=
  match Prim2SF x with
  | S754_finite s m e =>
      let z :=
        (if 0 <=? e then Z.pos m * 2 ^ e else Z.pos m / 2 ^ (- e))%Z in
      if s then (- z)%Z else z
  | _ => 0
  end.

(** Conversions that agree with the language on strings of up to fifteen
    decimal digits, on strings with a character that is no part of any
    numeric literal, and on non-negative integers below 2^53. *)
Definition sample_builtins : Builtins := {|
  StringToNumber s :=
    match digits_value s 0 with
    | Some n => float_of_Z (Z.of_N n)
    | None => nan
    end;
  NumberToString x := pretty (Z_of_number x)
|}.

(** A simulated clock: every mark advances the time by a fixed step. *)
Record SimApi := mkSimApi {
  sim_now : number;
  sim_timeOrigin : number;
  sim_url : option string;
  sim_entries : list PerformanceEntry
}.

Definition sim_step : number := 12.3456%float.

Definition sim_name (n : option string) : string := default "undefined" n.

Definition sim_find (n : string) (es : list PerformanceEntry)
  : option PerformanceEntry :=
  List.find (fun e => String.eqb (entry_name e) n) (rev es).

Definition sim_mark (n : option string) (a : SimApi) : SimApi :=
  mkSimApi (sim_now a + sim_step)%float (sim_timeOrigin a) (sim_url a)
           (sim_entries a ++ [mkEntry (sim_name n) (sim_now a) 0%float]).

Definition sim_measure (n startMark stopMark : option string) (a : SimApi)
  : SimApi :=
  match sim_find (sim_name startMark) (sim_entries a),
        sim_find (sim_name stopMark) (sim_entries a) with
  | Some s, Some e =>
      mkSimApi (sim_now a) (sim_timeOrigin a) (sim_url a)
               (sim_entries a ++
                  [mkEntry (sim_name n) (entry_startTime s)
                           (entry_startTime e - entry_startTime s)%float])
  | _, _ => a
  end.

Definition sample_api : Api SimApi := {|
  api_mark := sim_mark;
  api_measure := sim_measure;
  api_getEntriesByName n a :=
    Some (List.filter (fun e => String.eqb (entry_name e) (sim_name n))
                      (sim_entries a));
  api_getTimeOrigin := sim_timeOrigin;
  api_getUrl := sim_url
|}.

Definition sim_api0 : SimApi :=
  mkSimApi 100.25%float 1500000000000%float (Some "/home") [].

Definition sim_world0 : @World SimApi :=
  mkWorld sim_api0 ∅ [] (fun n => 0.123456789%float) 0.

(** A trace fresh from [new Trace("t")] on the sample host. *)
Definition sim_config0 : @Config SimApi :=
  let '(t, w) :=
    @new_Trace sample_builtins sample_constants SimApi sample_api
               "t" None None sim_world0 in
  mkConfig t w.

(** The sample trace after [start], and after [start] and [stop]. *)
Definition sim_running : @Config SimApi :=
  (@start SimApi sample_api sim_config0).2.

Definition sim_terminated : @Config SimApi :=
  (@stop SimApi sample_api sim_running).2.

(** The sample trace next to a caller's dictionary [{k: "v"}], at
    [sim_attributes]. *)
Definition sim_attributes : loc := 2%positive.

Definition sim_config_caller : @Config SimApi :=
  (heap_store sim_attributes {["k" := "v"]} sim_config0).2.

(** A page load as the browser reports it. *)
Definition sim_navigation : PerformanceNavigationTiming :=
  mkNavigationTiming 812.5%float 0.5%float 640.25%float 810.125%float.

Definition sim_paint : list PerformanceEntry :=
  [mkEntry "first-paint" 301.2%float 0%float;
   mkEntry "first-contentful-paint" 355.75%float 0%float].

(** What a trace is given at construction and keeps. *)
Definition Trace_identity (t : Trace)
  : string * bool * number * option string * option string * option string :=
  (name t, isAuto t, randomId t,
   traceStartMark t, traceStopMark t, traceMeasure t).

(** The calls that hand the trace to the reporter when made in state [s]. *)
Definition call_reports (s : TraceState) (call : Call) : bool :=
  match call with
  | CallRecord _ _ _ => true
  | CallStop => bool_decide (s = RUNNING)
  | _ => false
  end.

(** The trace holds [o] under the counter [k] (nothing, if [o] is [None]),
    and the reporter has received [r]. *)
Definition counter_holds {ApiState} (k : string) (o : option number)
           (r : list Trace) (c : @Config ApiState) : Prop :=
  counters (this c) !! k = o /\ reports (world c) = r.

(** What the page-load factory makes of the paint timings under the entry
    name [n]: the first entry of that name counts, if its start time is
    neither zero nor NaN. *)
Definition paint_metric (n : string) (paintTimings : list PerformanceEntry)
  : option number :=
  match List.find (fun paintObject => String.eqb (entry_name paintObject) n)
                  paintTimings with
  | Some p =>
      if truthy_number (entry_startTime p)
      then Some (0 + Math_floor (entry_startTime p * 1000))%float
      else None
  | None => None
  end.

(** [c] is [c0] with the start time [st] and with some counters and some
    duration. *)
Definition oob_progress {ApiState} (c0 : @Config ApiState) (st : number)
           (c : @Config ApiState) : Prop :=
  exists cs d,
    c = mkConfig (set_counters cs
                    (set_durationUs d (set_startTimeUs (Some st) (this c0))))
                 (world c0).

(** The property names every plain object inherits from
    [Object.prototype] (ECMAScript, Annex B included).  Under one of them a
    dictionary that has no such property of its own answers the inherited
    member, not [undefined]; and an assignment to [__proto__] goes to the
    inherited setter, which stores nothing when handed a number or a
    string.  Under every other name a read finds an own property or
    [undefined] and an assignment makes or overwrites an own property, which
    is what the finite maps do. *)
Definition Object_prototype_names : list string :=
  ["constructor"; "__defineGetter__"; "__defineSetter__"; "hasOwnProperty";
   "__lookupGetter__"; "__lookupSetter__"; "isPrototypeOf";
   "propertyIsEnumerable"; "toString"; "valueOf"; "__proto__";
   "toLocaleString"].

(** A name under which a dictionary holds only what was put there. *)
Definition own_name (k : string) : Prop := k ∉ Object_prototype_names.

(** ** Properties *)

Ltac unfold_method :=
  unfold start, stop, record, incrementMetric, putMetric, getMetric,
    putAttribute, getAttribute, removeAttribute, getAttributes,
    calculateTraceMetrics, setStartTime, setDuration, logTrace,
    read, update, throw, api_get, api_do, heap_load, heap_store, heap_alloc,
    mbind, mret, Method_bind, Method_ret in *;
  cbn [fst snd this world api heap reports random_seq random_pos
       set_api set_heap set_reports
       name isAuto state startTimeUs durationUs customAttributes counters
       randomId traceStartMark traceStopMark traceMeasure
       set_state set_startTimeUs set_durationUs set_customAttributes
       set_counters] in *.

(** Two stored numbers that differ. *)
Ltac float_discriminate H :=
  apply (f_equal (fmap (M:=option) Prim2SF)) in H;
  vm_compute in H; discriminate H.

(** Adding a number to zero gives the number back, the negative zero
    apart: [0 + -0] is the positive zero. *)
Lemma add_zero_l (x : number) :
  Prim2SF x <> S754_zero true -> (0 + x)%float = x.
Proof.
  intros Hx. apply Prim2SF_inj. rewrite FloatAxioms.add_spec.
  change (Prim2SF 0) with (S754_zero false).
  unfold SF64add, SFadd.
  destruct (Prim2SF x) as [[]| | |]; try reflexivity. congruence.
Qed.

(** [Math.floor] and [Math.trunc] on a few numbers, among them the cases
    where they part: negative fractions. *)
Example Math_floor_samples :
  Math_floor 3.7%float = 3%float
  /\ Math_floor (-3.7)%float = (-4)%float
  /\ Math_floor 0.5%float = 0%float
  /\ Math_floor (-0.5)%float = (-1)%float
  /\ Math_floor (-0)%float = (-0)%float
  /\ Math_floor 4503599627370495.5%float = 4503599627370495%float
  /\ Math_floor 1e300%float = 1e300%float
  /\ Math_floor infinity = infinity
  /\ Math_floor nan = nan
  /\ Math_floor (1.001 * 1000)%float = 1000%float.
Proof. repeat split; vm_compute; reflexivity. Qed.

Example Math_trunc_samples :
  Math_trunc 3.7%float = 3%float
  /\ Math_trunc (-3.7)%float = (-3)%float
  /\ Math_trunc (-0.5)%float = (-0)%float
  /\ Math_trunc nan = nan.
Proof. repeat split; vm_compute; reflexivity. Qed.

Section TraceProperties.
Context {builtins : Builtins} {constants : Constants}.
Context {ApiState : Type} {api_impl : Api ApiState}.
Implicit Types (c : @Config ApiState) (w : @World ApiState) (t : Trace).

Lemma config_eta c : mkConfig (this c) (world c) = c.
Proof. by destruct c. Qed.

Lemma set_counters_id t : set_counters (counters t) t = t.
Proof. by destruct t. Qed.

(** *** Metrics *)

Lemma putMetric_eq counter num c :
  putMetric counter num c =
  (Normal tt,
   mkConfig (set_counters (<[counter := num]> (counters (this c))) (this c))
            (world c)).
Proof. reflexivity. Qed.

Lemma incrementMetric_eq counter num c :
  incrementMetric counter num c =
  (Normal tt,
   mkConfig
     (set_counters
        (<[counter := (default 0%float (counters (this c) !! counter)
                       + default 1%float num)%float]> (counters (this c)))
        (this c))
     (world c)).
Proof.
  unfold_method.
  destruct (counters (this c) !! counter) as [v|] eqn:E; unfold_method.
  - by rewrite E.
  - rewrite lookup_insert_eq. cbn [default]. by rewrite insert_insert_eq.
Qed.

Lemma getMetric_eq counter c :
  getMetric counter c =
  (Normal (match counters (this c) !! counter with
           | Some v => if truthy_number v then v else 0%float
           | None => 0%float
           end), c).
Proof. reflexivity. Qed.

(** *** The life cycle *)

Lemma start_uninitialized c :
  state (this c) = UNINITIALIZED ->
  start c =
  (Normal tt,
   mkConfig (set_state RUNNING (this c))
            (set_api (api_mark (traceStartMark (this c)) (api (world c)))
                     (world c))).
Proof. intros E. unfold_method. by rewrite E. Qed.

Lemma start_started c :
  state (this c) <> UNINITIALIZED ->
  start c
  = (Throw (ERROR_FACTORY_create TRACE_STARTED_BEFORE (name (this c))), c).
Proof.
  intros E. unfold_method. by destruct (state (this c)).
Qed.

Lemma stop_not_running c :
  state (this c) <> RUNNING ->
  stop c
  = (Throw (ERROR_FACTORY_create TRACE_STOPPED_BEFORE (name (this c))), c).
Proof.
  intros E. unfold_method. by destruct (state (this c)).
Qed.

(** The measurement the trace looks at, if the clock has kept one. *)
Lemma calculateTraceMetrics_eq c :
  calculateTraceMetrics c =
  (Normal tt,
   match api_getEntriesByName (traceMeasure (this c)) (api (world c))
         ≫= head with
   | Some e =>
       mkConfig
         (set_startTimeUs
            (Some (Math_floor ((entry_startTime e
                                + api_getTimeOrigin (api (world c)))
                               * 1000)%float))
            (set_durationUs
               (Some (Math_floor (entry_duration e * 1000)%float))
               (this c)))
         (world c)
   | None => c
   end).
Proof.
  unfold_method.
  by destruct (option_bind _ _ _ _).
Qed.

Lemma calculateTraceMetrics_normal c :
  (calculateTraceMetrics c).1 = Normal tt.
Proof. by rewrite calculateTraceMetrics_eq. Qed.

Lemma calculateTraceMetrics_frame c :
  let c' := (calculateTraceMetrics c).2 in
  world c' = world c /\ state (this c') = state (this c)
  /\ name (this c') = name (this c)
  /\ counters (this c') = counters (this c)
  /\ customAttributes (this c') = customAttributes (this c).
Proof.
  rewrite calculateTraceMetrics_eq. cbn [snd].
  by destruct (_ ≫= head).
Qed.

Lemma stop_running c :
  state (this c) = RUNNING ->
  stop c =
  (Normal tt,
   let c1 :=
     (calculateTraceMetrics
        (mkConfig (set_state TERMINATED (this c))
                  (set_api (api_after_stop (this c) (api (world c)))
                           (world c)))).2 in
   mkConfig (this c1)
            (set_reports (reports (world c1) ++ [this c1]) (world c1))).
Proof.
  intros E. unfold_method. rewrite E.
  rewrite bool_decide_eq_true_2 by done. cbn [negb]. cbv beta.
  unfold_method. unfold api_after_stop.
  destruct (option_bind _ _ _ _); reflexivity.
Qed.

(** *** [record] *)

Lemma for_of_metrics (ms : gmap string JsValue) ks c :
  for_of ks (fun metric =>
    if negb (isNaN (ToNumber (js_get ms metric))) then
      cs ← read counters;
      update (set_counters
                (<[metric := Math_floor (ToNumber (js_get ms metric))]> cs))
    else mret tt) c
  = (Normal tt,
     mkConfig (set_counters (store_metrics ms ks (counters (this c))) (this c))
              (world c)).
Proof.
  revert c. induction ks as [|k ks IH]; intros c.
  - cbn. by rewrite set_counters_id, config_eta.
  - cbn [for_of]. unfold mbind at 1. unfold Method_bind at 1.
    destruct (isNaN (ToNumber (js_get ms k))) eqn:E; cbn [negb].
    + unfold mret, Method_ret. rewrite IH.
      unfold store_metrics. cbn [foldl]. by rewrite E.
    + unfold_method. rewrite IH.
      unfold store_metrics. cbn [foldl this world counters set_counters].
      by rewrite E.
Qed.

Lemma store_metrics_lookup (ms : gmap string JsValue) ks cs k :
  store_metrics ms ks cs !! k
  = if bool_decide (k ∈ ks) && negb (isNaN (ToNumber (js_get ms k)))
    then Some (Math_floor (ToNumber (js_get ms k)))
    else cs !! k.
Proof.
  revert cs. induction ks as [|x ks IH]; intros cs.
  - cbn. rewrite bool_decide_eq_false_2; [done|]. apply not_elem_of_nil.
  - unfold store_metrics in *. cbn [foldl]. rewrite IH.
    destruct (decide (k = x)) as [->|Hne].
    + rewrite (bool_decide_eq_true_2 (x ∈ x :: ks)) by apply list_elem_of_here.
      destruct (isNaN (ToNumber (js_get ms x))); cbn [negb andb].
      * by rewrite andb_false_r.
      * rewrite lookup_insert_eq. by destruct (bool_decide (x ∈ ks)).
    + assert (bool_decide (k ∈ x :: ks) = bool_decide (k ∈ ks)) as ->.
      { apply bool_decide_ext. rewrite elem_of_cons. intuition congruence. }
      destruct (bool_decide (k ∈ ks) && _); [done|].
      destruct (negb _); [|done]. by rewrite lookup_insert_ne.
Qed.

Lemma elem_of_Object_keys {V} (o : gmap string V) k :
  k ∈ Object_keys o <-> is_Some (o !! k).
Proof.
  unfold Object_keys. rewrite list_elem_of_fmap. split.
  - intros [[k' v] [-> Hin]]. apply elem_of_map_to_list in Hin. by eexists.
  - intros [v Hv]. exists (k, v). split; [done|].
    by apply elem_of_map_to_list.
Qed.

(** What the loop of [record] does to one counter. *)
Lemma store_metrics_keys_lookup (ms : gmap string JsValue) cs k :
  store_metrics ms (Object_keys ms) cs !! k
  = match ms !! k with
    | Some v =>
        if isNaN (ToNumber v) then cs !! k
        else Some (Math_floor (ToNumber v))
    | None => cs !! k
    end.
Proof.
  rewrite store_metrics_lookup. unfold js_get.
  destruct (ms !! k) as [v|] eqn:E; cbn [default from_option id].
  - rewrite bool_decide_eq_true_2.
    + by destruct (isNaN (ToNumber v)).
    + apply elem_of_Object_keys. by eexists.
  - rewrite bool_decide_eq_false_2; [done|].
    rewrite elem_of_Object_keys, E. by intros [? ?].
Qed.

Lemma record_eq startTime duration options c :
  record startTime duration options c =
  (Normal tt,
   let t1 :=
     set_startTimeUs (Some (Math_floor (startTime * 1000)%float))
       (set_durationUs (Some (Math_floor (duration * 1000)%float)) (this c)) in
   let h := heap (world c) in
   let l := fresh (dom h) in
   let t2 :=
     match options ≫= attributes with
     | Some a => set_customAttributes l t1
     | None => t1
     end in
   let h2 :=
     match options ≫= attributes with
     | Some a => <[l := deref h a]> h
     | None => h
     end in
   let t3 :=
     match options ≫= metrics with
     | Some ms =>
         set_counters (store_metrics ms (Object_keys ms) (counters t2)) t2
     | None => t2
     end in
   mkConfig t3 (set_reports (reports (world c) ++ [t3]) (set_heap h2 (world c)))).
Proof.
  unfold record.
  destruct (options ≫= attributes) as [a|];
    destruct (options ≫= metrics) as [ms|];
    unfold_method; rewrite ?for_of_metrics; reflexivity.
Qed.

Lemma record_normal startTime duration options c :
  (record startTime duration options c).1 = Normal tt.
Proof. by rewrite record_eq. Qed.

Lemma record_state startTime duration options c :
  state (this (record startTime duration options c).2) = state (this c).
Proof.
  rewrite record_eq. cbn [snd this].
  by destruct (options ≫= attributes), (options ≫= metrics).
Qed.

Lemma record_times startTime duration options c :
  let c' := (record startTime duration options c).2 in
  startTimeUs (this c') = Some (Math_floor (startTime * 1000)%float)
  /\ durationUs (this c') = Some (Math_floor (duration * 1000)%float)
  /\ name (this c') = name (this c).
Proof.
  rewrite record_eq. cbn [snd this].
  by destruct (options ≫= attributes), (options ≫= metrics).
Qed.

Lemma record_reports startTime duration options c :
  let c' := (record startTime duration options c).2 in
  reports (world c') = reports (world c) ++ [this c'].
Proof. by rewrite record_eq. Qed.

(** *** Calls from outside *)

(** How a call ends, by the state it finds. *)
Lemma invoke_completion call c :
  (invoke call c).1
  = match call with
    | CallStart =>
        if bool_decide (state (this c) = UNINITIALIZED) then Normal tt
        else Throw (ERROR_FACTORY_create TRACE_STARTED_BEFORE (name (this c)))
    | CallStop =>
        if bool_decide (state (this c) = RUNNING) then Normal tt
        else Throw (ERROR_FACTORY_create TRACE_STOPPED_BEFORE (name (this c)))
    | _ => Normal tt
    end.
Proof.
  destruct call; cbn [invoke].
  - case_bool_decide.
    + by rewrite start_uninitialized.
    + by rewrite start_started.
  - case_bool_decide.
    + by rewrite stop_running.
    + by rewrite stop_not_running.
  - apply record_normal.
  - by rewrite incrementMetric_eq.
  - done.
  - done.
  - done.
  - done.
  - unfold_method. by destruct (_ !! attr).
  - done.
Qed.

(** The state after a call: where it was, or one step further. *)
Lemma invoke_state call c :
  let s := state (this c) in
  let s' := state (this (invoke call c).2) in
  s' = s
  \/ (call = CallStart /\ s = UNINITIALIZED /\ s' = RUNNING)
  \/ (call = CallStop /\ s = RUNNING /\ s' = TERMINATED).
Proof.
  destruct call; cbn [invoke]; cbv zeta.
  - destruct (decide (state (this c) = UNINITIALIZED)) as [E|E].
    + rewrite start_uninitialized by done. right; left. done.
    + rewrite start_started by done. by left.
  - destruct (decide (state (this c) = RUNNING)) as [E|E].
    + rewrite stop_running by done. right; right.
      cbn [snd this].
      destruct (calculateTraceMetrics_frame
                  (mkConfig (set_state TERMINATED (this c))
                            (set_api (api_after_stop (this c) (api (world c)))
                                     (world c)))) as (_ & -> & _).
      done.
    + rewrite stop_not_running by done. by left.
  - left. apply record_state.
  - left. by rewrite incrementMetric_eq.
  - by left.
  - by left.
  - by left.
  - by left.
  - left. unfold_method. by destruct (_ !! attr).
  - by left.
Qed.

Lemma run_calls_app pre post c :
  run_calls (pre ++ post) c = run_calls post (run_calls pre c).
Proof.
  revert c. induction pre as [|call pre IH]; intros c; [done|].
  cbn [run_calls app]. apply IH.
Qed.

Lemma run_calls_state_le calls c :
  (TraceState_value (state (this c))
   <= TraceState_value (state (this (run_calls calls c))))%Z.
Proof.
  revert c. induction calls as [|call calls IH]; intros c; [done|].
  cbn [run_calls]. etrans; [|apply IH].
  destruct (invoke_state call c) as [->|[(_ & -> & ->)|(_ & -> & ->)]];
    cbn; lia.
Qed.

(** C2: [start] on a trace that is not UNINITIALIZED throws the
    trace-started error with the name of the trace and changes nothing, and so
    does [stop], with the trace-stopped error, on one that is not RUNNING; no
    other call ever throws. *)
Theorem out_of_order_calls_throw c :
  (state (this c) <> UNINITIALIZED ->
   start c = (Throw (mkError TRACE_STARTED_BEFORE (name (this c))), c))
  /\ (state (this c) <> RUNNING ->
      stop c = (Throw (mkError TRACE_STOPPED_BEFORE (name (this c))), c))
  /\ (forall call,
        (exists e, (invoke call c).1 = Throw e)
        <-> (call = CallStart /\ state (this c) <> UNINITIALIZED)
            \/ (call = CallStop /\ state (this c) <> RUNNING)).
Proof.
  split; [apply start_started|]. split; [apply stop_not_running|].
  intros call. rewrite invoke_completion. split.
  - intros [e He]. destruct call; try discriminate He.
    + left. split; [done|]. intros E.
      by rewrite bool_decide_eq_true_2 in He.
    + right. split; [done|]. intros E.
      by rewrite bool_decide_eq_true_2 in He.
  - intros [[-> E]|[-> E]]; rewrite bool_decide_eq_false_2 by done; eauto.
Qed.

(** C3: a call leaves the state where it was or moves it one step on,
    UNINITIALIZED to RUNNING by [start] and RUNNING to TERMINATED by [stop];
    a call that is neither of the two leaves it alone; and over any run of
    calls the state never goes back. *)
Theorem state_only_advances c :
  (forall call,
     let s := state (this c) in
     let s' := state (this (invoke call c).2) in
     s' = s
     \/ (call = CallStart /\ s = UNINITIALIZED /\ s' = RUNNING)
     \/ (call = CallStop /\ s = RUNNING /\ s' = TERMINATED))
  /\ (forall call,
        call <> CallStart -> call <> CallStop ->
        state (this (invoke call c).2) = state (this c))
  /\ (forall pre post,
        (TraceState_value (state (this (run_calls pre c)))
         <= TraceState_value (state (this (run_calls (pre ++ post) c))))%Z).
Proof.
  split; [intros call; apply invoke_state|]. split.
  - intros call H1 H2.
    by destruct (invoke_state call c) as [?|[(? & _)|(? & _)]].
  - intros pre post. rewrite run_calls_app. apply run_calls_state_le.
Qed.

(** *** Times taken from a measurement *)

Lemma stop_reports c :
  state (this c) = RUNNING ->
  let c' := (stop c).2 in
  reports (world c') = reports (world c) ++ [this c']
  /\ state (this c') = TERMINATED /\ name (this c') = name (this c).
Proof.
  intros E. rewrite stop_running by done. cbn [snd this world reports].
  destruct (calculateTraceMetrics_frame
              (mkConfig (set_state TERMINATED (this c))
                        (set_api (api_after_stop (this c) (api (world c)))
                                 (world c)))) as (-> & -> & -> & _).
  done.
Qed.

Lemma new_Trace_user_timing n isAuto m w :
  default false isAuto = false -> truthy_string m = true ->
  new_Trace n isAuto (Some m) w
  = let l := fresh (dom (heap w)) in
    let w1 := (Math_random (set_heap (<[l := ∅]> (heap w)) w)).2 in
    let randomId := Math_floor (random_seq w (random_pos w) * 1000000)%float in
    let c :=
      (calculateTraceMetrics
         (mkConfig
            (mkTrace n false UNINITIALIZED None None l ∅ randomId
               (Some (TRACE_START_MARK_PREFIX ++ "-" ++ NumberToString randomId
                        ++ "-" ++ n)%string)
               (Some (TRACE_STOP_MARK_PREFIX ++ "-" ++ NumberToString randomId
                        ++ "-" ++ n)%string)
               (Some m))
            w1)).2 in
    (this c, world c).
Proof.
  intros E1 E2. unfold new_Trace. rewrite E1.
  cbn [Math_random negb truthy_opt_string]. by rewrite E2.
Qed.

Lemma new_Trace_auto n m w :
  new_Trace n (Some true) m w
  = let l := fresh (dom (heap w)) in
    (mkTrace n true UNINITIALIZED None None l ∅
             (Math_floor (random_seq w (random_pos w) * 1000000)%float)
             None None None,
     (Math_random (set_heap (<[l := ∅]> (heap w)) w)).2).
Proof. reflexivity. Qed.

(** C4: when the clock has an entry under the measure name of the trace,
    [durationUs] is the floor of a thousand times the duration of the first
    one and [startTimeUs] the floor of a thousand times its start time plus
    the time origin; when it has none, both fields stay as they were and
    nothing is thrown.  This is what [calculateTraceMetrics] does, hence what
    [stop] does on the clock as it has just left it, and what the
    constructor does when it is given a measure name, where the fields as
    they were are undefined. *)
Theorem trace_metrics_from_measurement c :
  let found t (a : ApiState) e :=
    durationUs t = Some (Math_floor (entry_duration e * 1000)%float)
    /\ startTimeUs t
       = Some (Math_floor ((entry_startTime e + api_getTimeOrigin a)
                           * 1000)%float) in
  ((calculateTraceMetrics c).1 = Normal tt
   /\ (forall e es,
         api_getEntriesByName (traceMeasure (this c)) (api (world c))
         = Some (e :: es) ->
         found (this (calculateTraceMetrics c).2) (api (world c)) e)
   /\ (api_getEntriesByName (traceMeasure (this c)) (api (world c)) ≫= head
       = None ->
       (calculateTraceMetrics c).2 = c))
  /\ (state (this c) = RUNNING ->
      let a := api_after_stop (this c) (api (world c)) in
      (stop c).1 = Normal tt
      /\ (forall e es,
            api_getEntriesByName (traceMeasure (this c)) a = Some (e :: es) ->
            found (this (stop c).2) a e)
      /\ (api_getEntriesByName (traceMeasure (this c)) a ≫= head = None ->
          durationUs (this (stop c).2) = durationUs (this c)
          /\ startTimeUs (this (stop c).2) = startTimeUs (this c)))
  /\ (forall n isAuto m w,
        default false isAuto = false -> truthy_string m = true ->
        let t := (new_Trace n isAuto (Some m) w).1 in
        (forall e es,
           api_getEntriesByName (Some m) (api w) = Some (e :: es) ->
           found t (api w) e)
        /\ (api_getEntriesByName (Some m) (api w) ≫= head = None ->
            durationUs t = None /\ startTimeUs t = None)).
Proof.
  cbv zeta. split; [|split].
  - split; [apply calculateTraceMetrics_normal|].
    rewrite calculateTraceMetrics_eq. split.
    + intros e es ->. done.
    + intros ->. done.
  - intros E. rewrite stop_running by done. cbv zeta.
    rewrite calculateTraceMetrics_eq.
    cbn [fst snd this world api set_api traceMeasure set_state].
    split; [done|]. split.
    + intros e es ->. done.
    + intros ->. done.
  - intros n isAuto m w E1 E2.
    rewrite new_Trace_user_timing by done. cbv zeta.
    rewrite calculateTraceMetrics_eq.
    cbn [fst snd this world api set_api set_heap Math_random traceMeasure
         set_random_pos].
    split.
    + intros e es ->. done.
    + intros ->. done.
Qed.

(** *** What [record] assigns and what it leaves *)

Lemma deref_insert_eq (h : gmap loc (gmap string string)) l o :
  deref (<[l := o]> h) l = o.
Proof. unfold deref. by rewrite lookup_insert_eq. Qed.

Lemma deref_insert_ne (h : gmap loc (gmap string string)) l l' o :
  l <> l' -> deref (<[l := o]> h) l' = deref h l'.
Proof. intros Hne. unfold deref. by rewrite lookup_insert_ne. Qed.

Lemma fresh_not_allocated (h : gmap loc (gmap string string)) :
  fresh (dom h) ∉ dom h.
Proof. apply is_fresh. Qed.

(** C5: [record] sets [startTimeUs] and [durationUs] to the floors of a
    thousand times its first two arguments; when the options carry
    attributes, the attribute dictionary of the trace becomes a new object
    holding exactly what theirs holds; every metric of the options that is
    a number after coercion is stored floored (under every key but
    [__proto__], where an assignment stores nothing); and the reporter
    receives the trace, as it now is, exactly once. *)
Theorem record_assigns startTime duration options c :
  let c' := (record startTime duration options c).2 in
  (record startTime duration options c).1 = Normal tt
  /\ startTimeUs (this c') = Some (Math_floor (startTime * 1000)%float)
  /\ durationUs (this c') = Some (Math_floor (duration * 1000)%float)
  /\ (forall a,
        options ≫= attributes = Some a ->
        (customAttributes (this c') ∉ dom (heap (world c)))
        /\ deref (heap (world c')) (customAttributes (this c'))
           = deref (heap (world c)) a)
  /\ (forall ms k v,
        options ≫= metrics = Some ms -> k <> "__proto__" ->
        ms !! k = Some v -> isNaN (ToNumber v) = false ->
        counters (this c') !! k = Some (Math_floor (ToNumber v)))
  /\ reports (world c') = reports (world c) ++ [this c'].
Proof.
  cbv zeta. rewrite record_eq. cbv zeta. cbn [fst snd this world reports].
  split; [done|].
  split; [by destruct (options ≫= attributes), (options ≫= metrics)|].
  split; [by destruct (options ≫= attributes), (options ≫= metrics)|].
  split; [|split; [|done]].
  - intros a ->.
    assert (forall t, customAttributes
              match options ≫= metrics with
              | Some ms =>
                  set_counters
                    (store_metrics ms (Object_keys ms) (counters t)) t
              | None => t
              end = customAttributes t) as ->.
    { intros t. by destruct (options ≫= metrics). }
    cbn [customAttributes set_customAttributes heap set_heap set_reports].
    split; [apply fresh_not_allocated|apply deref_insert_eq].
  - intros ms k v -> _ Hk Hv. cbn [counters set_counters].
    by rewrite store_metrics_keys_lookup, Hk, Hv.
Qed.

(** C6: of the metrics handed to [record], one that is no number after
    coercion is passed over without an error, its counter staying as it was
    (absent when it was absent), and one that is a number is stored
    floored (under every key but [__proto__], where an assignment stores
    nothing); counters that are not among the metrics are not touched. *)
Theorem record_drops_non_numeric startTime duration options ms c :
  options ≫= metrics = Some ms ->
  let c' := (record startTime duration options c).2 in
  (record startTime duration options c).1 = Normal tt
  /\ (forall k v,
        k <> "__proto__" -> ms !! k = Some v ->
        counters (this c') !! k
        = if isNaN (ToNumber v) then counters (this c) !! k
          else Some (Math_floor (ToNumber v)))
  /\ (forall k v,
        ms !! k = Some v -> isNaN (ToNumber v) = true ->
        counters (this c) !! k = None -> counters (this c') !! k = None)
  /\ (forall k, ms !! k = None ->
                counters (this c') !! k = counters (this c) !! k).
Proof.
  intros E. cbv zeta. rewrite record_eq. cbv zeta. rewrite E.
  cbn [fst snd this counters set_counters].
  assert (counters
            match options ≫= attributes with
            | Some _ =>
                set_customAttributes (fresh (dom (heap (world c))))
                  (set_startTimeUs (Some (Math_floor (startTime * 1000)%float))
                     (set_durationUs
                        (Some (Math_floor (duration * 1000)%float)) (this c)))
            | None =>
                set_startTimeUs (Some (Math_floor (startTime * 1000)%float))
                  (set_durationUs
                     (Some (Math_floor (duration * 1000)%float)) (this c))
            end = counters (this c)) as ->.
  { by destruct (options ≫= attributes). }
  split; [done|]. split; [|split].
  - intros k v _ Hk. by rewrite store_metrics_keys_lookup, Hk.
  - intros k v Hk Hv Hc. by rewrite store_metrics_keys_lookup, Hk, Hv.
  - intros k Hk. by rewrite store_metrics_keys_lookup, Hk.
Qed.

(** C7: [record] looks at no state and sets none: whatever the state, it
    ends normally, leaves the state as it found it and hands the trace to
    the reporter.  So on a running trace [stop] followed by [record] makes
    two reports of the one trace, both TERMINATED and under the same name,
    the second with the times that [record] was given. *)
Theorem record_ignores_state startTime duration options c :
  (let c' := (record startTime duration options c).2 in
   (record startTime duration options c).1 = Normal tt
   /\ state (this c') = state (this c)
   /\ reports (world c') = reports (world c) ++ [this c'])
  /\ (state (this c) = RUNNING ->
      let c1 := (stop c).2 in
      let c2 := (record startTime duration options c1).2 in
      (stop;; record startTime duration options) c = (Normal tt, c2)
      /\ reports (world c2) = reports (world c) ++ [this c1; this c2]
      /\ state (this c1) = TERMINATED /\ state (this c2) = TERMINATED
      /\ name (this c1) = name (this c) /\ name (this c2) = name (this c)
      /\ startTimeUs (this c2) = Some (Math_floor (startTime * 1000)%float)
      /\ durationUs (this c2) = Some (Math_floor (duration * 1000)%float)).
Proof.
  split.
  - cbv zeta. split; [apply record_normal|].
    split; [apply record_state|apply record_reports].
  - intros E. cbv zeta.
    destruct (stop_reports c E) as (Hr & Hs & Hn).
    destruct (record_times startTime duration options (stop c).2)
      as (Hst & Hd & Hn2).
    pose proof (record_reports startTime duration options (stop c).2) as Hr2.
    pose proof (record_normal startTime duration options (stop c).2) as Hok.
    cbv zeta in Hr2.
    split; [|split; [|split; [|split; [|split; [|split; [|split]]]]]].
    + unfold mbind, Method_bind.
      assert ((stop c).1 = Normal tt) as Hstop by (by rewrite stop_running).
      destruct (stop c) as [r c1]. cbn [fst] in Hstop. subst r.
      cbn [snd] in *.
      destruct (record startTime duration options c1) as [r c2].
      cbn [fst snd] in *. by subst r.
    + rewrite Hr2, Hr. by rewrite <- app_assoc.
    + done.
    + by rewrite record_state.
    + done.
    + by rewrite Hn2.
    + done.
    + done.
Qed.

(** C10: [record] without options, or with options that have neither
    attributes nor metrics, assigns the two times and nothing else of the
    trace: counters, attribute dictionary and heap are as before. *)
Theorem record_without_options_frame startTime duration options c :
  options ≫= attributes = None -> options ≫= metrics = None ->
  let c' := (record startTime duration options c).2 in
  this c'
  = set_startTimeUs (Some (Math_floor (startTime * 1000)%float))
      (set_durationUs (Some (Math_floor (duration * 1000)%float)) (this c))
  /\ counters (this c') = counters (this c)
  /\ customAttributes (this c') = customAttributes (this c)
  /\ heap (world c') = heap (world c)
  /\ (record startTime duration None c).2 = c'.
Proof.
  intros Ea Em. cbv zeta. rewrite !record_eq. cbv zeta. rewrite Ea, Em.
  done.
Qed.

(** *** Attributes *)

Lemma putAttribute_eq attr value c :
  putAttribute attr value c =
  (Normal tt,
   mkConfig (this c)
     (set_heap
        (<[customAttributes (this c) :=
             <[attr := value]>
               (deref (heap (world c)) (customAttributes (this c)))]>
           (heap (world c)))
        (world c))).
Proof. reflexivity. Qed.

Lemma getAttribute_eq attr c :
  getAttribute attr c =
  (Normal (deref (heap (world c)) (customAttributes (this c)) !! attr), c).
Proof. reflexivity. Qed.

Lemma getAttributes_eq c :
  getAttributes c =
  (Normal (fresh (dom (heap (world c)))),
   mkConfig (this c)
     (set_heap
        (<[fresh (dom (heap (world c))) :=
             deref (heap (world c)) (customAttributes (this c))]>
           (heap (world c)))
        (world c))).
Proof. reflexivity. Qed.

Lemma heap_wf_fresh c :
  heap_wf c -> fresh (dom (heap (world c))) <> customAttributes (this c).
Proof.
  unfold heap_wf. intros Hin Heq. rewrite <- Heq in Hin.
  by apply fresh_not_allocated in Hin.
Qed.

(** The constructor allocates the attribute dictionary, empty. *)
Lemma new_Trace_heap_wf n isAuto m w :
  let '(t, w') := new_Trace n isAuto m w in
  heap_wf (mkConfig t w') /\ deref (heap w') (customAttributes t) = ∅.
Proof.
  unfold new_Trace.
  destruct (default false isAuto); cbn [negb Math_random].
  - unfold heap_wf. cbn. rewrite dom_insert_L, deref_insert_eq.
    split; [set_solver|done].
  - destruct (truthy_opt_string m).
    + rewrite calculateTraceMetrics_eq. cbn [snd].
      destruct (_ ≫= head); unfold heap_wf; cbn;
        rewrite dom_insert_L, deref_insert_eq; (split; [set_solver|done]).
    + unfold heap_wf. cbn. rewrite dom_insert_L, deref_insert_eq.
      split; [set_solver|done].
Qed.

Lemma putAttribute_heap_wf attr value c :
  heap_wf c -> heap_wf (putAttribute attr value c).2.
Proof.
  unfold heap_wf. rewrite putAttribute_eq. cbn. rewrite dom_insert_L.
  set_solver.
Qed.

(** No call leaves the trace with a dangling reference. *)
Lemma invoke_heap_wf call c : heap_wf c -> heap_wf (invoke call c).2.
Proof.
  unfold heap_wf. intros Hwf. destruct call; cbn [invoke].
  - destruct (decide (state (this c) = UNINITIALIZED)).
    + by rewrite start_uninitialized.
    + by rewrite start_started.
  - destruct (decide (state (this c) = RUNNING)).
    + rewrite stop_running by done. cbn [snd this world heap set_reports].
      destruct (calculateTraceMetrics_frame
                  (mkConfig (set_state TERMINATED (this c))
                            (set_api (api_after_stop (this c) (api (world c)))
                                     (world c)))) as (-> & _ & _ & _ & ->).
      done.
    + by rewrite stop_not_running.
  - rewrite record_eq. cbv zeta. cbn [snd this world heap set_reports set_heap].
    destruct (options ≫= attributes), (options ≫= metrics);
      cbn [customAttributes set_counters set_customAttributes set_startTimeUs
           set_durationUs]; rewrite ?dom_insert_L; set_solver.
  - by rewrite incrementMetric_eq.
  - done.
  - done.
  - by apply putAttribute_heap_wf.
  - done.
  - unfold_method. destruct (_ !! attr); [|done].
    cbn. rewrite dom_insert_L. set_solver.
  - unfold_method. rewrite dom_insert_L. set_solver.
Qed.

(** C9: what [getAttributes] returns is a new object with the content of
    the attribute dictionary, which after [putAttribute(attr, value)], for
    every name [attr] but [__proto__], is the old content with [attr] set
    (and nothing but [attr] on a trace that had no attributes).  Whatever the caller then stores in the returned object,
    the dictionary of the trace, every [getAttribute] and every later
    [getAttributes] are as if it had stored nothing. *)
Theorem getAttributes_returns_copy attr value c :
  attr <> "__proto__" ->
  heap_wf c ->
  let before := deref (heap (world c)) (customAttributes (this c)) in
  let c1 := (putAttribute attr value c).2 in
  let c2 := (getAttributes c1).2 in
  exists l,
    (getAttributes c1).1 = Normal l
    /\ l <> customAttributes (this c2)
    /\ deref (heap (world c2)) l = <[attr := value]> before
    /\ (before = ∅ -> deref (heap (world c2)) l = {[attr := value]})
    /\ forall o',
         let c3 := (heap_store l o' c2).2 in
         this c3 = this c2
         /\ deref (heap (world c3)) (customAttributes (this c3))
            = <[attr := value]> before
         /\ (forall k, (getAttribute k c3).1 = (getAttribute k c2).1)
         /\ exists l',
              (getAttributes c3).1 = Normal l'
              /\ l' <> l
              /\ deref (heap (world (getAttributes c3).2)) l'
                 = <[attr := value]> before.
Proof.
  intros _ Hwf. cbv zeta.
  assert (heap_wf (putAttribute attr value c).2) as Hwf1.
  { by apply putAttribute_heap_wf. }
  apply heap_wf_fresh in Hwf1.
  rewrite putAttribute_eq in *. cbn [snd this world heap set_heap] in *.
  set (a := customAttributes (this c)) in *.
  set (o := <[attr := value]> (deref (heap (world c)) a)) in *.
  rewrite getAttributes_eq. cbn [fst snd this world heap set_heap].
  set (l := fresh (dom (<[a := o]> (heap (world c))))) in *.
  exists l. fold a. rewrite !deref_insert_eq.
  split; [done|]. split; [done|]. split; [done|]. split.
  { intros E. unfold o. by rewrite E, insert_empty. }
  intros o'. cbv zeta. unfold heap_store.
  cbn [snd this world heap set_heap]. fold a.
  rewrite insert_insert_eq.
  split; [done|]. split.
  { by rewrite (deref_insert_ne _ l a), deref_insert_eq. }
  split.
  { intros k. rewrite !getAttribute_eq.
    cbn [fst this world heap set_heap]. fold a.
    by rewrite !(deref_insert_ne _ l a), !deref_insert_eq. }
  rewrite getAttributes_eq. cbn [fst snd this world heap set_heap]. fold a.
  eexists. split; [done|]. split.
  - intros Heq.
    pose proof (fresh_not_allocated (<[l := o']> (<[a := o]> (heap (world c)))))
      as Hfresh.
    rewrite Heq in Hfresh. apply Hfresh. rewrite dom_insert_L. set_solver.
  - by rewrite deref_insert_eq, (deref_insert_ne _ l a), deref_insert_eq.
Qed.

(** *** Reasoning along a method body *)

Lemma hoare_bind {A B} (P : @Config ApiState -> Prop) (m : Method A) Q
      (k : A -> Method B) R :
  hoare P m Q -> (forall a, hoare (Q a) (k a) R) -> hoare P (m ≫= k) R.
Proof.
  intros Hm Hk c HP. destruct (Hm c HP) as (a & c' & Em & HQ).
  destruct (Hk a c' HQ) as (b & c'' & Ek & HR).
  exists b, c''. split; [|done].
  unfold mbind, Method_bind. by rewrite Em.
Qed.

Lemma hoare_mret {A} (P : @Config ApiState -> Prop) (a : A) :
  hoare P (mret a) (fun _ => P).
Proof. intros c HP. by exists a, c. Qed.

Lemma hoare_step {A} (P : @Config ApiState -> Prop) (m : Method A)
      (Q : A -> Config -> Prop) a (f : Config -> Config) :
  (forall c, m c = (Normal a, f c)) -> (forall c, P c -> Q a (f c)) ->
  hoare P m Q.
Proof. intros Em HQ c HP. exists a, (f c). split; [apply Em|by apply HQ]. Qed.

Section NoCounterYet.
Variables (k : string) (r : list Trace).

Lemma keeps_api_get {A} (f : ApiState -> A) :
  hoare (@no_counter_yet ApiState k r) (api_get f) (fun _ => no_counter_yet k r).
Proof. intros c HP. by exists (f (api (world c))), c. Qed.

Lemma keeps_update f :
  (forall t, counters (f t) = counters t) ->
  hoare (@no_counter_yet ApiState k r) (update f) (fun _ => no_counter_yet k r).
Proof.
  intros Hf. eapply hoare_step; [reflexivity|].
  intros c [Hc Hr]. split; [|done]. cbn. by rewrite Hf.
Qed.

Lemma keeps_incrementMetric counter num :
  counter <> k ->
  hoare (@no_counter_yet ApiState k r) (incrementMetric counter num)
        (fun _ => no_counter_yet k r).
Proof.
  intros Hne. eapply hoare_step; [apply incrementMetric_eq|].
  intros c [Hc Hr]. split; [|done]. cbn. by rewrite lookup_insert_ne.
Qed.

Lemma first_incrementMetric num :
  hoare (@no_counter_yet ApiState k r) (incrementMetric k (Some num))
        (fun _ c => counters (this c) !! k = Some (0 + num)%float
                    /\ reports (world c) = r).
Proof.
  eapply hoare_step; [apply incrementMetric_eq|].
  intros c [Hc Hr]. split; [|done]. cbn. by rewrite lookup_insert_eq, Hc.
Qed.
End NoCounterYet.

Lemma createOobTrace_body_first_input_delay
      navigationTimings paintTimings (fid : number) r :
  truthy_number fid = true ->
  FIRST_INPUT_DELAY_COUNTER_NAME
    ∉ ["domInteractive"; "domContentLoadedEventEnd"; "loadEventEnd";
       FIRST_PAINT_COUNTER_NAME; FIRST_CONTENTFUL_PAINT_COUNTER_NAME] ->
  hoare (no_counter_yet FIRST_INPUT_DELAY_COUNTER_NAME r)
        (createOobTrace_body navigationTimings (Some paintTimings) (Some fid))
        (fun _ c =>
           exists t,
             reports (world c) = r ++ [t]
             /\ counters t !! FIRST_INPUT_DELAY_COUNTER_NAME
                = Some (0 + Math_floor (fid * 1000))%float).
Proof.
  intros Hfid Hne. unfold createOobTrace_body.
  eapply hoare_bind; [apply keeps_api_get|]. intros origin.
  eapply hoare_bind; [by apply keeps_update|]. intros ?.
  eapply hoare_bind.
  { destruct (navigationTimings ≫= head) as [nav|]; [|apply hoare_mret].
    eapply hoare_bind; [by apply keeps_update|]. intros ?.
    eapply hoare_bind; [apply keeps_incrementMetric; set_solver|]. intros ?.
    eapply hoare_bind; [apply keeps_incrementMetric; set_solver|]. intros ?.
    apply keeps_incrementMetric; set_solver. }
  intros ?. eapply hoare_bind.
  { eapply hoare_bind.
    { destruct (List.find _ paintTimings) as [fp|]; [|apply hoare_mret].
      destruct (truthy_number (entry_startTime fp)); [|apply hoare_mret].
      apply keeps_incrementMetric; set_solver. }
    intros ?. eapply hoare_bind.
    { destruct (List.find _ paintTimings) as [fcp|]; [|apply hoare_mret].
      destruct (truthy_number (entry_startTime fcp)); [|apply hoare_mret].
      apply keeps_incrementMetric; set_solver. }
    intros ?. rewrite Hfid. apply first_incrementMetric. }
  intros ?. eapply hoare_step; [reflexivity|].
  intros c [Hc Hr]. exists (this c). cbn. by rewrite Hr.
Qed.

(** C8, as amended: when a route is available, the paint timings are
    present (empty or not) and the first input delay is a number other than
    zero and NaN, and the name of its counter is none of the other counter
    names, the trace handed to the reporter has under that name the floor
    of a thousand times the delay, added by [incrementMetric] to the 0 of a
    counter that was not there (which changes nothing but the sign of a
    negative zero). *)
Theorem createOobTrace_first_input_delay
        navigationTimings paintTimings (fid : number) w :
  truthy_opt_string (api_getUrl (api w)) = true ->
  truthy_number fid = true ->
  FIRST_INPUT_DELAY_COUNTER_NAME
    ∉ ["domInteractive"; "domContentLoadedEventEnd"; "loadEventEnd";
       FIRST_PAINT_COUNTER_NAME; FIRST_CONTENTFUL_PAINT_COUNTER_NAME] ->
  exists t,
    reports (createOobTrace navigationTimings (Some paintTimings) (Some fid) w)
    = reports w ++ [t]
    /\ counters t !! FIRST_INPUT_DELAY_COUNTER_NAME
       = Some (0 + Math_floor (fid * 1000))%float
    /\ (Prim2SF (Math_floor (fid * 1000)) <> S754_zero true ->
        counters t !! FIRST_INPUT_DELAY_COUNTER_NAME
        = Some (Math_floor (fid * 1000)%float)).
Proof.
  intros Hroute Hfid Hne. unfold createOobTrace. rewrite Hroute.
  cbn [negb]. rewrite new_Trace_auto. cbv beta iota zeta.
  match goal with
  | |- context [createOobTrace_body _ _ _ ?c] =>
      destruct (createOobTrace_body_first_input_delay
                  navigationTimings paintTimings fid (reports w) Hfid Hne c)
        as (u & c' & -> & t & Hr & Hc)
  end.
  - split; [apply lookup_empty|reflexivity].
  - exists t. split; [by rewrite <- Hr|]. split; [done|].
    intros Hz. by rewrite Hc, add_zero_l.
Qed.
End TraceProperties.

(** ** Further properties of the class *)

Section TraceCoverage.
Context {builtins : Builtins} {constants : Constants}.
Context {ApiState : Type} {api_impl : Api ApiState}.
Implicit Types (c : @Config ApiState) (w : @World ApiState) (t : Trace).

(** *** Attributes *)

Lemma removeAttribute_eq attr c :
  removeAttribute attr c =
  (Normal tt,
   match deref (heap (world c)) (customAttributes (this c)) !! attr with
   | None => c
   | Some _ =>
       mkConfig (this c)
         (set_heap
            (<[customAttributes (this c) :=
                 delete attr
                   (deref (heap (world c)) (customAttributes (this c)))]>
               (heap (world c)))
            (world c))
   end).
Proof. unfold_method. by destruct (_ !! attr). Qed.

(** X1: under every name but [__proto__], an attribute that was put is
    the one read back, the other attributes read as before, a second
    [putAttribute] under the same name leaves the trace as if the first had
    not been made, and nothing of the trace but the dictionary is
    touched. *)
Theorem putAttribute_then_getAttribute attr value c :
  attr <> "__proto__" ->
  let c' := (putAttribute attr value c).2 in
  (getAttribute attr c').1 = Normal (Some value)
  /\ (forall k, k <> attr -> (getAttribute k c').1 = (getAttribute k c).1)
  /\ (forall value',
        (putAttribute attr value' c').2 = (putAttribute attr value' c).2)
  /\ this c' = this c
  /\ reports (world c') = reports (world c)
  /\ api (world c') = api (world c).
Proof.
  intros _. cbv zeta. rewrite putAttribute_eq. cbn [snd].
  split; [|split; [|split; [|done]]].
  - rewrite getAttribute_eq. cbn [fst this world heap set_heap].
    by rewrite deref_insert_eq, lookup_insert_eq.
  - intros k Hk. rewrite !getAttribute_eq. cbn [fst this world heap set_heap].
    by rewrite deref_insert_eq, lookup_insert_ne.
  - intros value'. rewrite !putAttribute_eq. cbn [snd this world heap set_heap].
    by rewrite deref_insert_eq, !insert_insert_eq.
Qed.

(** X2: for a name that is not inherited, [removeAttribute] never throws;
    on a name the trace does not have it changes nothing at all; afterwards
    the name reads as undefined and every other attribute as before; and
    removing an attribute right after putting it, on a trace that did not
    have it, gives the dictionary back as it was. *)
Theorem removeAttribute_removes attr c :
  own_name attr ->
  let before := deref (heap (world c)) (customAttributes (this c)) in
  let c' := (removeAttribute attr c).2 in
  (removeAttribute attr c).1 = Normal tt
  /\ (before !! attr = None -> c' = c)
  /\ (getAttribute attr c').1 = Normal None
  /\ (forall k, k <> attr -> (getAttribute k c').1 = (getAttribute k c).1)
  /\ this c' = this c
  /\ (forall value,
        before !! attr = None ->
        let c2 := (removeAttribute attr (putAttribute attr value c).2).2 in
        deref (heap (world c2)) (customAttributes (this c2)) = before).
Proof.
  intros _. cbv zeta. rewrite removeAttribute_eq. cbn [fst snd].
  split; [done|]. split; [by intros ->|].
  destruct (deref (heap (world c)) (customAttributes (this c)) !! attr)
    as [v|] eqn:E.
  - split; [|split; [|split; [done|intros ? [=]]]].
    + rewrite getAttribute_eq. cbn [fst this world heap set_heap].
      by rewrite deref_insert_eq, lookup_delete_eq.
    + intros k Hk. rewrite !getAttribute_eq.
      cbn [fst this world heap set_heap].
      by rewrite deref_insert_eq, lookup_delete_ne.
  - split; [rewrite getAttribute_eq; cbn [fst]; by rewrite E|].
    split; [done|]. split; [done|].
    intros value _. rewrite putAttribute_eq, removeAttribute_eq.
    cbn [snd this world heap set_heap].
    rewrite deref_insert_eq, lookup_insert_eq.
    cbn [this world heap set_heap].
    by rewrite insert_insert_eq, deref_insert_eq, delete_insert_id.
Qed.

(** *** Metrics *)

Lemma truthy_number_proper (v : number) :
  truthy_number v = true ->
  PrimFloat.is_nan v = false /\ Prim2SF v <> S754_zero true.
Proof.
  unfold truthy_number. intros H. apply negb_true_iff, orb_false_elim in H.
  destruct H as [Hz Hn]. split; [done|]. intros Hv.
  assert (v = (-0)%float) as -> by (by apply Prim2SF_inj).
  vm_compute in Hz. discriminate Hz.
Qed.

(** X3: for a name that is not inherited, [getMetric] changes nothing and
    never answers NaN or the negative zero: it answers 0 for a counter that
    is absent, or holds a zero or NaN, and the stored value otherwise. *)
Theorem getMetric_answers_a_number counter c :
  own_name counter ->
  exists r,
    getMetric counter c = (Normal r, c)
    /\ PrimFloat.is_nan r = false
    /\ Prim2SF r <> S754_zero true
    /\ (counters (this c) !! counter = None -> r = 0%float)
    /\ (forall v, counters (this c) !! counter = Some v ->
                  r = if truthy_number v then v else 0%float).
Proof.
  intros _. rewrite getMetric_eq. eexists. split; [reflexivity|].
  destruct (counters (this c) !! counter) as [v|].
  - destruct (truthy_number v) eqn:E.
    + destruct (truthy_number_proper v E) as [Hn Hz].
      split; [done|]. split; [done|]. split; [done|].
      intros v' [= <-]. by rewrite E.
    + split; [done|]. split; [by vm_compute|]. split; [done|].
      intros v' [= <-]. by rewrite E.
  - split; [done|]. split; [by vm_compute|]. split; [done|]. by intros.
Qed.

(** X4: [putMetric] and [incrementMetric] never throw and change one
    counter of the trace and nothing else: the other counters, the other
    fields of the trace, the attribute dictionaries, the clock and the
    reports are as they were. *)
Theorem metric_mutators_touch_one_counter counter (v : number) num c :
  let c1 := (putMetric counter v c).2 in
  let c2 := (incrementMetric counter num c).2 in
  (putMetric counter v c).1 = Normal tt
  /\ (incrementMetric counter num c).1 = Normal tt
  /\ (forall k, k <> counter ->
                counters (this c1) !! k = counters (this c) !! k
                /\ counters (this c2) !! k = counters (this c) !! k)
  /\ this c1 = set_counters (counters (this c1)) (this c)
  /\ this c2 = set_counters (counters (this c2)) (this c)
  /\ world c1 = world c /\ world c2 = world c.
Proof.
  cbv zeta. rewrite putMetric_eq, incrementMetric_eq.
  cbn [fst snd this world counters set_counters].
  split; [done|]. split; [done|]. split; [|done].
  intros k Hk. by rewrite !lookup_insert_ne.
Qed.

(** X5: how the metric methods follow one another, for a counter name
    that is not inherited.  An increment after [putMetric] adds to the
    value put; two increments add up in the order they are made, starting
    from 0 on a counter that is absent; an omitted increment is an
    increment by 1; of two [putMetric] on one counter the later one alone
    counts; and after [putMetric] on two different counters, every counter
    holds the same whichever was made first. *)
Theorem metric_mutators_compose counter (v v' a b : number) num c :
  own_name counter ->
  counters (this (incrementMetric counter num (putMetric counter v c).2).2)
    !! counter = Some (v + default 1%float num)%float
  /\ counters
       (this (incrementMetric counter (Some b)
                (incrementMetric counter (Some a) c).2).2) !! counter
     = Some ((default 0%float (counters (this c) !! counter) + a) + b)%float
  /\ incrementMetric counter None c = incrementMetric counter (Some 1%float) c
  /\ counters (this (putMetric counter v' (putMetric counter v c).2).2)
     = counters (this (putMetric counter v' c).2)
  /\ (forall counter' k,
        counter <> counter' ->
        counters (this (putMetric counter' v' (putMetric counter v c).2).2)
          !! k
        = counters (this (putMetric counter v (putMetric counter' v' c).2).2)
            !! k).
Proof.
  intros _. rewrite !putMetric_eq, !incrementMetric_eq.
  cbn [fst snd this world counters set_counters].
  rewrite !lookup_insert_eq. cbn [default from_option id].
  split; [done|]. split; [done|]. split; [done|]. split.
  - by rewrite insert_insert_eq.
  - intros counter' k Hne. rewrite !putMetric_eq.
    cbn [snd this world counters set_counters].
    by rewrite insert_insert_ne.
Qed.

(** *** The life cycle *)

Lemma invoke_identity call c :
  Trace_identity (this (invoke call c).2) = Trace_identity (this c).
Proof.
  destruct call; cbn [invoke].
  - destruct (decide (state (this c) = UNINITIALIZED)).
    + by rewrite start_uninitialized.
    + by rewrite start_started.
  - destruct (decide (state (this c) = RUNNING)).
    + rewrite stop_running by done. cbv zeta.
      rewrite calculateTraceMetrics_eq. cbn [snd this].
      by destruct (_ ≫= head).
    + by rewrite stop_not_running.
  - rewrite record_eq. cbn [snd this].
    by destruct (options ≫= attributes), (options ≫= metrics).
  - by rewrite incrementMetric_eq.
  - done.
  - done.
  - done.
  - done.
  - rewrite removeAttribute_eq. cbn [snd]. by destruct (_ !! attr).
  - done.
Qed.

Lemma invoke_reports call c :
  let c' := (invoke call c).2 in
  reports (world c')
  = reports (world c)
      ++ (if call_reports (state (this c)) call then [this c'] else []).
Proof.
  cbv zeta. destruct call; cbn [invoke call_reports].
  - destruct (decide (state (this c) = UNINITIALIZED)).
    + rewrite start_uninitialized by done. cbn. by rewrite app_nil_r.
    + rewrite start_started by done. cbn. by rewrite app_nil_r.
  - case_bool_decide.
    + by destruct (stop_reports c) as (-> & _).
    + rewrite stop_not_running by done. cbn. by rewrite app_nil_r.
  - apply record_reports.
  - rewrite incrementMetric_eq. cbn. by rewrite app_nil_r.
  - cbn. by rewrite app_nil_r.
  - cbn. by rewrite app_nil_r.
  - cbn. by rewrite app_nil_r.
  - cbn. by rewrite app_nil_r.
  - rewrite removeAttribute_eq. cbn [snd].
    destruct (_ !! attr); cbn; by rewrite app_nil_r.
  - cbn. by rewrite app_nil_r.
Qed.

Lemma run_calls_identity calls c :
  Trace_identity (this (run_calls calls c)) = Trace_identity (this c).
Proof.
  revert c. induction calls as [|call calls IH]; intros c; [done|].
  cbn [run_calls]. by rewrite IH, invoke_identity.
Qed.

(** X6: a terminated trace stays terminated.  Whatever calls are made on
    it, caught errors and all, its state is still TERMINATED afterwards, and
    [start] and [stop] then throw their errors and change nothing. *)
Theorem terminated_is_final calls c :
  state (this c) = TERMINATED ->
  let c' := run_calls calls c in
  state (this c') = TERMINATED
  /\ start c'
     = (Throw (ERROR_FACTORY_create TRACE_STARTED_BEFORE (name (this c))), c')
  /\ stop c'
     = (Throw (ERROR_FACTORY_create TRACE_STOPPED_BEFORE (name (this c))), c').
Proof.
  intros E. cbv zeta.
  assert (state (this (run_calls calls c)) = TERMINATED) as E'.
  { pose proof (run_calls_state_le calls c) as Hle. rewrite E in Hle.
    destruct (state (this (run_calls calls c))); cbn in Hle; [lia|lia|done]. }
  pose proof (run_calls_identity calls c) as Hid. injection Hid as Hn _.
  split; [done|]. rewrite <- Hn. split.
  - apply start_started. by rewrite E'.
  - apply stop_not_running. by rewrite E'.
Qed.

(** X7: the reporter hears of the trace through [record] and through a
    [stop] that finds it running, once per call and with the trace as the
    call left it; no other call reports, and no call alters or drops what
    was reported before. *)
Theorem reports_come_from_stop_and_record call c :
  let c' := (invoke call c).2 in
  reports (world c')
  = reports (world c)
      ++ (if call_reports (state (this c)) call then [this c'] else [])
  /\ (forall calls,
        exists more, reports (world (run_calls calls c))
                     = reports (world c) ++ more)
  /\ (forall calls,
        Forall (fun call => call_reports RUNNING call = false) calls ->
        reports (world (run_calls calls c)) = reports (world c)).
Proof.
  cbv zeta. split; [apply invoke_reports|]. split.
  - intros calls. revert c. induction calls as [|call' calls IH]; intros c.
    + exists []. by rewrite app_nil_r.
    + cbn [run_calls]. destruct (IH (invoke call' c).2) as [more ->].
      rewrite invoke_reports, <- app_assoc. by eexists.
  - intros calls. revert c.
    induction calls as [|call' calls IH]; intros c Hall; [done|].
    apply Forall_cons in Hall as [Hcall Hall]. cbn [run_calls].
    rewrite IH, invoke_reports by done.
    destruct call'; try discriminate Hcall; cbn; by rewrite app_nil_r.
Qed.

(** X8: no call changes what the constructor gave the trace: over any run
    of calls the name, the auto flag, the random id and the three mark and
    measure names are the same. *)
Theorem identity_is_kept calls c :
  let t := this (run_calls calls c) in
  name t = name (this c) /\ isAuto t = isAuto (this c)
  /\ randomId t = randomId (this c)
  /\ traceStartMark t = traceStartMark (this c)
  /\ traceStopMark t = traceStopMark (this c)
  /\ traceMeasure t = traceMeasure (this c).
Proof.
  cbv zeta. pose proof (run_calls_identity calls c) as Hid.
  by injection Hid as -> -> -> -> -> ->.
Qed.

(** *** The constructor *)

Lemma new_Trace_plain n auto m w :
  default false auto = false -> truthy_opt_string m = false ->
  new_Trace n auto m w
  = let l := fresh (dom (heap w)) in
    let randomId := Math_floor (random_seq w (random_pos w) * 1000000)%float in
    (mkTrace n false UNINITIALIZED None None l ∅ randomId
       (Some (TRACE_START_MARK_PREFIX ++ "-" ++ NumberToString randomId
                ++ "-" ++ n)%string)
       (Some (TRACE_STOP_MARK_PREFIX ++ "-" ++ NumberToString randomId
                ++ "-" ++ n)%string)
       (Some (TRACE_MEASURE_PREFIX ++ "-" ++ NumberToString randomId
                ++ "-" ++ n)%string),
     (Math_random (set_heap (<[l := ∅]> (heap w)) w)).2).
Proof.
  intros E1 E2. unfold new_Trace. rewrite E1.
  cbn [Math_random negb]. by rewrite E2.
Qed.

(** The three ways through the constructor. *)
Lemma new_Trace_cases n auto m w :
  (auto = Some true /\ new_Trace n auto m w = new_Trace n (Some true) m w)
  \/ (default false auto = false /\ truthy_opt_string m = false)
  \/ (default false auto = false
      /\ exists s, m = Some s /\ truthy_string s = true).
Proof.
  destruct auto as [[]|]; [by left| |].
  - right. destruct m as [s|]; [|by left].
    destruct (truthy_string s) eqn:E; [right|left]; eauto.
  - right. destruct m as [s|]; [|by left].
    destruct (truthy_string s) eqn:E; [right|left]; eauto.
Qed.

Lemma new_Trace_heap n auto m w :
  customAttributes (new_Trace n auto m w).1 = fresh (dom (heap w))
  /\ heap (new_Trace n auto m w).2 = <[fresh (dom (heap w)) := ∅]> (heap w).
Proof.
  destruct (new_Trace_cases n auto m w)
    as [[-> _]|[[E1 E2]|[E1 (s & -> & E2)]]].
  - by rewrite new_Trace_auto.
  - by rewrite new_Trace_plain.
  - rewrite new_Trace_user_timing by done. cbv zeta.
    rewrite calculateTraceMetrics_eq. cbn [fst snd].
    by destruct (_ ≫= head).
Qed.

(** X9: every trace starts out the same way: UNINITIALIZED, without
    counters, under the name and the auto flag it was given (not auto when
    the flag is left out), with a random id that is the floor of a million
    times the next random number, and with an empty attribute dictionary
    of its own, newly allocated.  Constructing it draws one random number
    and neither reports nor marks anything. *)
Theorem new_Trace_starts_empty n auto m w :
  let t := (new_Trace n auto m w).1 in
  let w' := (new_Trace n auto m w).2 in
  state t = UNINITIALIZED /\ counters t = ∅
  /\ name t = n /\ isAuto t = default false auto
  /\ randomId t = Math_floor (random_seq w (random_pos w) * 1000000)%float
  /\ (customAttributes t ∉ dom (heap w))
  /\ heap w' = <[customAttributes t := ∅]> (heap w)
  /\ deref (heap w') (customAttributes t) = ∅
  /\ reports w' = reports w /\ api w' = api w
  /\ random_pos w' = S (random_pos w).
Proof.
  cbv zeta. destruct (new_Trace_heap n auto m w) as [Hl Hh].
  rewrite Hh, Hl, deref_insert_eq.
  assert (fresh (dom (heap w)) ∉ dom (heap w)) as Hfresh
    by apply fresh_not_allocated.
  destruct (new_Trace_cases n auto m w)
    as [[-> _]|[[E1 E2]|[E1 (s & -> & E2)]]].
  - by rewrite new_Trace_auto.
  - rewrite new_Trace_plain, E1 by done. done.
  - rewrite new_Trace_user_timing, E1 by done. cbv zeta.
    rewrite calculateTraceMetrics_eq. cbn [fst snd].
    by destruct (_ ≫= head).
Qed.

(** X10: which names a trace gets.  An auto trace gets none, and no times
    either, measure name or not.  Any other trace gets start and stop marks
    made of the prefix, its random id and its name; its measure is the
    measure name it was given, if that is a string other than the empty
    one, and else made like the marks, in which case the constructor
    leaves both times undefined. *)
Theorem new_Trace_names n auto m w :
  let t := (new_Trace n auto m w).1 in
  let made prefix :=
    Some (prefix ++ "-" ++ NumberToString (randomId t) ++ "-" ++ n)%string in
  (auto = Some true ->
   traceStartMark t = None /\ traceStopMark t = None /\ traceMeasure t = None
   /\ startTimeUs t = None /\ durationUs t = None)
  /\ (default false auto = false ->
      traceStartMark t = made TRACE_START_MARK_PREFIX
      /\ traceStopMark t = made TRACE_STOP_MARK_PREFIX
      /\ traceMeasure t
         = (if truthy_opt_string m then m else made TRACE_MEASURE_PREFIX)
      /\ (truthy_opt_string m = false ->
          startTimeUs t = None /\ durationUs t = None)).
Proof.
  cbv zeta. split.
  - intros ->. by rewrite new_Trace_auto.
  - intros E1. destruct (truthy_opt_string m) eqn:E2.
    + destruct m as [s|]; [|done]. cbn in E2.
      rewrite new_Trace_user_timing by done. cbv zeta.
      rewrite calculateTraceMetrics_eq. cbn [fst snd].
      by destruct (_ ≫= head).
    + by rewrite new_Trace_plain.
Qed.

(** X11: two traces never share their attributes: of two traces
    constructed one after the other, the second has a dictionary of its own,
    and an attribute put on either, under a name that is not inherited,
    does not show on the other. *)
Theorem traces_do_not_share_attributes n1 a1 m1 n2 a2 m2 w attr value :
  own_name attr ->
  let t1 := (new_Trace n1 a1 m1 w).1 in
  let w1 := (new_Trace n1 a1 m1 w).2 in
  let t2 := (new_Trace n2 a2 m2 w1).1 in
  let w2 := (new_Trace n2 a2 m2 w1).2 in
  customAttributes t1 <> customAttributes t2
  /\ (getAttribute attr
        (mkConfig t1 (world (putAttribute attr value (mkConfig t2 w2)).2))).1
     = Normal None
  /\ (getAttribute attr
        (mkConfig t2 (world (putAttribute attr value (mkConfig t1 w2)).2))).1
     = Normal None.
Proof.
  intros _. cbv zeta.
  destruct (new_Trace_heap n1 a1 m1 w) as [Hl1 Hh1].
  destruct (new_Trace_heap n2 a2 m2 (new_Trace n1 a1 m1 w).2) as [Hl2 Hh2].
  set (l1 := customAttributes (new_Trace n1 a1 m1 w).1) in *.
  set (l2 := customAttributes
               (new_Trace n2 a2 m2 (new_Trace n1 a1 m1 w).2).1) in *.
  assert (l1 <> l2) as Hne.
  { intros Heq.
    pose proof (fresh_not_allocated (heap (new_Trace n1 a1 m1 w).2)) as Hf.
    rewrite <- Hl2, <- Heq, Hh1, <- Hl1 in Hf. apply Hf.
    rewrite dom_insert_L. set_solver. }
  split; [done|].
  rewrite !putAttribute_eq, !getAttribute_eq.
  cbn [fst snd this world heap set_heap]. fold l1 l2.
  rewrite Hh2, <- Hl2, Hh1, <- Hl1.
  split.
  - rewrite deref_insert_eq, (deref_insert_ne _ l2 l1) by done.
    rewrite (deref_insert_ne _ l2 l1) by done. by rewrite deref_insert_eq.
  - rewrite (deref_insert_ne _ l2 l1) by done. rewrite deref_insert_eq.
    rewrite (deref_insert_ne _ l1 l2) by done. by rewrite deref_insert_eq.
Qed.

(** *** From [start] to [stop] *)

(** X12: on a trace that was not started, [start] and then [stop] end
    normally: the clock gets the start mark, the stop mark and the measure
    between them, in this order; the trace ends TERMINATED with its times
    taken from the first entry the clock then has under the measure name
    (and left as they were if it has none); the reporter receives exactly
    that trace, once; counters and attributes are not touched.  The other
    way round, [stop] throws at once and [start] is never reached. *)
Theorem start_then_stop c :
  state (this c) = UNINITIALIZED ->
  let t := this c in
  let a := api_after_stop t (api_mark (traceStartMark t) (api (world c))) in
  let c' := ((start;; stop) c).2 in
  ((start;; stop) c).1 = Normal tt
  /\ state (this c') = TERMINATED
  /\ api (world c') = a
  /\ reports (world c') = reports (world c) ++ [this c']
  /\ counters (this c') = counters t
  /\ customAttributes (this c') = customAttributes t
  /\ heap (world c') = heap (world c)
  /\ match api_getEntriesByName (traceMeasure t) a ≫= head with
     | Some e =>
         durationUs (this c')
         = Some (Math_floor (entry_duration e * 1000)%float)
         /\ startTimeUs (this c')
            = Some (Math_floor ((entry_startTime e + api_getTimeOrigin a)
                                * 1000)%float)
     | None =>
         durationUs (this c') = durationUs t
         /\ startTimeUs (this c') = startTimeUs t
     end
  /\ (stop;; start) c
     = (Throw (ERROR_FACTORY_create TRACE_STOPPED_BEFORE (name t)), c).
Proof.
  intros E. cbv zeta.
  assert ((start;; stop) c
          = stop (mkConfig (set_state RUNNING (this c))
                    (set_api (api_mark (traceStartMark (this c))
                                       (api (world c))) (world c)))) as ->.
  { unfold mbind, Method_bind. by rewrite start_uninitialized. }
  assert ((stop;; start) c
          = (Throw (ERROR_FACTORY_create TRACE_STOPPED_BEFORE (name (this c))),
             c)) as ->.
  { unfold mbind, Method_bind. rewrite stop_not_running; [done|].
    by rewrite E. }
  rewrite stop_running by done. cbv zeta. rewrite calculateTraceMetrics_eq.
  cbn [fst snd this world api set_api traceMeasure traceStartMark
       traceStopMark set_state].
  unfold api_after_stop at 1 2.
  cbn [traceMeasure traceStartMark traceStopMark set_state].
  fold (api_after_stop (this c)
          (api_mark (traceStartMark (this c)) (api (world c)))).
  by destruct (_ ≫= head).
Qed.

(** *** Traces from the user timing API *)

(** X13: [createUserTimingTrace] reports one trace and touches no mark:
    the trace is named after the measure, is not auto, has no counters and
    was never started.  For a measure name other than the empty string, its
    times are those of the first entry the clock has under that name, and
    are undefined when there is none; for the empty string they are
    undefined. *)
Theorem createUserTimingTrace_reports measureName w :
  let w' := createUserTimingTrace measureName w in
  exists t,
    reports w' = reports w ++ [t] /\ api w' = api w
    /\ name t = measureName /\ isAuto t = false
    /\ state t = UNINITIALIZED /\ counters t = ∅
    /\ (truthy_string measureName = true ->
        traceMeasure t = Some measureName
        /\ match api_getEntriesByName (Some measureName) (api w) ≫= head with
           | Some e =>
               durationUs t
               = Some (Math_floor (entry_duration e * 1000)%float)
               /\ startTimeUs t
                  = Some (Math_floor
                            ((entry_startTime e + api_getTimeOrigin (api w))
                             * 1000)%float)
           | None => durationUs t = None /\ startTimeUs t = None
           end)
    /\ (truthy_string measureName = false ->
        durationUs t = None /\ startTimeUs t = None).
Proof.
  cbv zeta. unfold createUserTimingTrace.
  exists (new_Trace measureName (Some false) (Some measureName) w).1.
  destruct (truthy_string measureName) eqn:E.
  - rewrite new_Trace_user_timing by done. cbv zeta.
    rewrite calculateTraceMetrics_eq.
    cbn [fst snd this world api set_api set_heap Math_random traceMeasure
         set_random_pos].
    destruct (_ ≫= head); cbn; (repeat split; try done); by intros [=].
  - rewrite new_Trace_plain by done. cbn.
    repeat split; try done; by intros [=].
Qed.

(** *** The page-load trace *)

Lemma bind_run {A B} (m : @Method ApiState A) (k : A -> Method B) c a c' :
  m c = (Normal a, c') -> (m ≫= k) c = k a c'.
Proof. intros E. unfold mbind, Method_bind. by rewrite E. Qed.

(** Runs a method body step by step: the goal is [m c = (Normal ?a, ?c')]
    or has a computed right-hand side. *)
Ltac run_method :=
  lazymatch goal with
  | |- mbind _ _ _ = _ =>
      etrans; [eapply bind_run; run_method | cbv beta; run_method]
  | |- incrementMetric _ _ _ = _ => apply incrementMetric_eq
  | |- _ => reflexivity
  end.

Lemma progress_update_duration c0 st d :
  hoare (oob_progress c0 st) (setDuration d) (fun _ => oob_progress c0 st).
Proof.
  eapply hoare_step; [reflexivity|].
  intros c (cs & d' & ->). by exists cs, (Some d).
Qed.

Lemma progress_incrementMetric c0 st counter num :
  hoare (oob_progress c0 st) (incrementMetric counter num)
        (fun _ => oob_progress c0 st).
Proof.
  eapply hoare_step; [apply incrementMetric_eq|].
  intros c (cs & d & ->). by eexists _, d.
Qed.

Lemma createOobTrace_body_progress navigationTimings paintTimings
      firstInputDelay c0 :
  hoare (fun c => c = c0)
        (createOobTrace_body navigationTimings paintTimings firstInputDelay)
        (fun _ c =>
           exists cs d,
             let t :=
               set_counters cs
                 (set_durationUs d
                    (set_startTimeUs
                       (Some (Math_floor
                                (api_getTimeOrigin (api (world c0)) * 1000)))
                       (this c0))) in
             c = mkConfig t (set_reports (reports (world c0) ++ [t])
                                         (world c0))).
Proof.
  unfold createOobTrace_body.
  set (st := Math_floor (api_getTimeOrigin (api (world c0)) * 1000)).
  eapply hoare_bind
    with (Q := fun origin c => origin = api_getTimeOrigin (api (world c0))
                               /\ c = c0).
  { intros c ->. by eexists _, _. }
  intros origin. eapply hoare_bind with (Q := fun _ => oob_progress c0 st).
  { intros c [-> ->]. eexists tt, _. split; [reflexivity|].
    exists (counters (this c0)), (durationUs (this c0)).
    by destruct c0 as [[] ?]. }
  intros ?. eapply hoare_bind with (Q := fun _ => oob_progress c0 st).
  { destruct (navigationTimings ≫= head) as [nav|]; [|apply hoare_mret].
    eapply hoare_bind; [apply progress_update_duration|]. intros ?.
    eapply hoare_bind; [apply progress_incrementMetric|]. intros ?.
    eapply hoare_bind; [apply progress_incrementMetric|]. intros ?.
    apply progress_incrementMetric. }
  intros ?. eapply hoare_bind with (Q := fun _ => oob_progress c0 st).
  { destruct paintTimings as [paintTimings|]; [|apply hoare_mret].
    eapply hoare_bind with (Q := fun _ => oob_progress c0 st).
    { destruct (List.find _ paintTimings) as [fp|]; [|apply hoare_mret].
      destruct (truthy_number (entry_startTime fp)); [|apply hoare_mret].
      apply progress_incrementMetric. }
    intros ?. eapply hoare_bind with (Q := fun _ => oob_progress c0 st).
    { destruct (List.find _ paintTimings) as [fcp|]; [|apply hoare_mret].
      destruct (truthy_number (entry_startTime fcp)); [|apply hoare_mret].
      apply progress_incrementMetric. }
    intros ?. destruct firstInputDelay as [fid|]; [|apply hoare_mret].
    destruct (truthy_number fid); [|apply hoare_mret].
    apply progress_incrementMetric. }
  intros ?. intros c (cs & d & ->). eexists tt, _.
  split; [reflexivity|]. by exists cs, d.
Qed.

(** X14: without a route (none, or the empty string) the page-load
    factory does nothing at all.  With one it reports exactly one trace and
    marks nothing: an auto trace named by the prefix and the route, never
    started, without mark or measure names, whose start time is the floor
    of a thousand times the time origin. *)
Theorem createOobTrace_reports_once
        navigationTimings paintTimings firstInputDelay w :
  let w' := createOobTrace navigationTimings paintTimings firstInputDelay w in
  let route := api_getUrl (api w) in
  if truthy_opt_string route then
    exists t,
      reports w' = reports w ++ [t] /\ api w' = api w
      /\ name t = (OOB_TRACE_PAGE_LOAD_PREFIX ++ default "" route)%string
      /\ isAuto t = true /\ state t = UNINITIALIZED
      /\ startTimeUs t
         = Some (Math_floor (api_getTimeOrigin (api w) * 1000)%float)
      /\ traceStartMark t = None /\ traceStopMark t = None
      /\ traceMeasure t = None
  else w' = w.
Proof.
  cbv zeta. unfold createOobTrace.
  destruct (truthy_opt_string (api_getUrl (api w))); cbn [negb]; [|done].
  rewrite new_Trace_auto. cbv beta iota zeta.
  match goal with
  | |- context [createOobTrace_body _ _ _ ?c] =>
      destruct (createOobTrace_body_progress
                  navigationTimings paintTimings firstInputDelay c c eq_refl)
        as (u & c' & -> & cs & d & ->)
  end.
  eexists. cbn. by repeat split.
Qed.

(** X15: the page-load trace made from navigation timing alone (the paint
    timings missing).  With a navigation entry its duration is the floor of
    a thousand times the entry's and its counters are exactly
    [domInteractive], [domContentLoadedEventEnd] and [loadEventEnd], each
    the floor of a thousand times the entry's field, added to 0; a first
    input delay is passed over.  Without a navigation entry (no collection,
    or an empty one) the trace has no duration and no counter. *)
Theorem createOobTrace_navigation_only navigationTimings firstInputDelay w :
  truthy_opt_string (api_getUrl (api w)) = true ->
  exists t,
    reports (createOobTrace navigationTimings None firstInputDelay w)
    = reports w ++ [t]
    /\ match navigationTimings ≫= head with
       | Some nav =>
           durationUs t = Some (Math_floor (nav_duration nav * 1000)%float)
           /\ counters t
              = <["loadEventEnd" :=
                    (0 + Math_floor (loadEventEnd nav * 1000))%float]>
                  (<["domContentLoadedEventEnd" :=
                       (0 + Math_floor
                              (domContentLoadedEventEnd nav * 1000))%float]>
                     (<["domInteractive" :=
                          (0 + Math_floor (domInteractive nav * 1000))%float]>
                        ∅))
       | None => durationUs t = None /\ counters t = ∅
       end.
Proof.
  intros Hroute. unfold createOobTrace. rewrite Hroute. cbn [negb].
  rewrite new_Trace_auto. cbv beta iota zeta. unfold createOobTrace_body.
  destruct (navigationTimings ≫= head) as [nav|].
  - match goal with
    | |- context [world (?m ?c).2] =>
        let E := fresh "E" in
        eassert (m c = _) as E by run_method; rewrite E; clear E
    end.
    unfold logTrace.
    cbn [fst snd id this world reports set_reports counters durationUs
         set_counters set_durationUs set_startTimeUs default from_option].
    eexists. split; [reflexivity|]. split; [done|].
    rewrite lookup_empty. cbn [default from_option].
    rewrite !lookup_insert_ne by done. rewrite !lookup_empty. done.
  - match goal with
    | |- context [world (?m ?c).2] =>
        let E := fresh "E" in
        eassert (m c = _) as E by run_method; rewrite E; clear E
    end.
    unfold logTrace. cbn. eexists. split; [reflexivity|]. done.
Qed.

Section CounterHolds.
Variables (k : string) (r : list Trace).

Lemma holds_api_get {A} o (f : ApiState -> A) :
  hoare (@counter_holds ApiState k o r) (api_get f)
        (fun _ => counter_holds k o r).
Proof. intros c HP. by exists (f (api (world c))), c. Qed.

Lemma holds_update o f :
  (forall t, counters (f t) = counters t) ->
  hoare (@counter_holds ApiState k o r) (update f)
        (fun _ => counter_holds k o r).
Proof.
  intros Hf. eapply hoare_step; [reflexivity|].
  intros c [Hc Hr]. split; [|done]. cbn. by rewrite Hf.
Qed.

Lemma holds_incrementMetric o counter num :
  counter <> k ->
  hoare (@counter_holds ApiState k o r) (incrementMetric counter num)
        (fun _ => counter_holds k o r).
Proof.
  intros Hne. eapply hoare_step; [apply incrementMetric_eq|].
  intros c [Hc Hr]. split; [|done]. cbn. by rewrite lookup_insert_ne.
Qed.

Lemma holds_first_incrementMetric num :
  hoare (@counter_holds ApiState k None r) (incrementMetric k (Some num))
        (fun _ => counter_holds k (Some (0 + num)%float) r).
Proof.
  eapply hoare_step; [apply incrementMetric_eq|].
  intros c [Hc Hr]. split; [|done]. cbn. by rewrite lookup_insert_eq, Hc.
Qed.

(** One paint step of the factory, seen from the counter it writes and
    from any other counter. *)
Lemma holds_paint_step_own n paintTimings :
  hoare (@counter_holds ApiState k None r)
        (match List.find (fun paintObject =>
                            String.eqb (entry_name paintObject) n)
                         paintTimings with
         | Some p =>
             if truthy_number (entry_startTime p) then
               incrementMetric k
                 (Some (Math_floor (entry_startTime p * 1000)%float))
             else mret tt
         | None => mret tt
         end)
        (fun _ => counter_holds k (paint_metric n paintTimings) r).
Proof.
  unfold paint_metric.
  destruct (List.find _ paintTimings) as [p|]; [|apply hoare_mret].
  destruct (truthy_number (entry_startTime p)); [|apply hoare_mret].
  apply holds_first_incrementMetric.
Qed.

Lemma holds_paint_step_other o counter n paintTimings :
  counter <> k ->
  hoare (@counter_holds ApiState k o r)
        (match List.find (fun paintObject =>
                            String.eqb (entry_name paintObject) n)
                         paintTimings with
         | Some p =>
             if truthy_number (entry_startTime p) then
               incrementMetric counter
                 (Some (Math_floor (entry_startTime p * 1000)%float))
             else mret tt
         | None => mret tt
         end)
        (fun _ => counter_holds k o r).
Proof.
  intros Hne.
  destruct (List.find _ paintTimings) as [p|]; [|apply hoare_mret].
  destruct (truthy_number (entry_startTime p)); [|apply hoare_mret].
  by apply holds_incrementMetric.
Qed.

Lemma holds_navigation_step navigationTimings :
  k ∉ ["domInteractive"; "domContentLoadedEventEnd"; "loadEventEnd"] ->
  hoare (@counter_holds ApiState k None r)
        (match navigationTimings ≫= head with
         | Some nav =>
             setDuration (Math_floor (nav_duration nav * 1000)%float);;
             incrementMetric "domInteractive"
               (Some (Math_floor (domInteractive nav * 1000)%float));;
             incrementMetric "domContentLoadedEventEnd"
               (Some (Math_floor (domContentLoadedEventEnd nav * 1000)%float));;
             incrementMetric "loadEventEnd"
               (Some (Math_floor (loadEventEnd nav * 1000)%float))
         | None => mret tt
         end)
        (fun _ => counter_holds k None r).
Proof.
  intros Hk.
  destruct (navigationTimings ≫= head) as [nav|]; [|apply hoare_mret].
  eapply hoare_bind; [by apply holds_update|]. intros ?.
  eapply hoare_bind; [apply holds_incrementMetric; set_solver|]. intros ?.
  eapply hoare_bind; [apply holds_incrementMetric; set_solver|]. intros ?.
  apply holds_incrementMetric; set_solver.
Qed.

Lemma holds_first_input_delay_step o counter firstInputDelay :
  counter <> k ->
  hoare (@counter_holds ApiState k o r)
        (match firstInputDelay with
         | Some fid =>
             if truthy_number fid then
               incrementMetric counter (Some (Math_floor (fid * 1000)%float))
             else mret tt
         | None => mret tt
         end)
        (fun _ => counter_holds k o r).
Proof.
  intros Hne. destruct firstInputDelay as [fid|]; [|apply hoare_mret].
  destruct (truthy_number fid); [|apply hoare_mret].
  by apply holds_incrementMetric.
Qed.

Lemma holds_logTrace o :
  hoare (@counter_holds ApiState k o r) (t ← read id; logTrace t)
        (fun _ c => exists t, reports (world c) = r ++ [t]
                              /\ counters t !! k = o).
Proof.
  eapply hoare_step; [reflexivity|].
  intros c [Hc Hr]. exists (this c). cbn. by rewrite Hr.
Qed.
End CounterHolds.

Lemma createOobTrace_body_first_paint
      navigationTimings paintTimings firstInputDelay r :
  NoDup [FIRST_PAINT_COUNTER_NAME; FIRST_CONTENTFUL_PAINT_COUNTER_NAME;
         FIRST_INPUT_DELAY_COUNTER_NAME; "domInteractive";
         "domContentLoadedEventEnd"; "loadEventEnd"] ->
  hoare (@counter_holds ApiState FIRST_PAINT_COUNTER_NAME None r)
        (createOobTrace_body navigationTimings (Some paintTimings)
                             firstInputDelay)
        (fun _ c =>
           exists t, reports (world c) = r ++ [t]
                     /\ counters t !! FIRST_PAINT_COUNTER_NAME
                        = paint_metric FIRST_PAINT paintTimings).
Proof.
  intros Hnd. apply NoDup_cons in Hnd as [H1 Hnd].
  unfold createOobTrace_body.
  eapply hoare_bind; [apply holds_api_get|]. intros origin.
  eapply hoare_bind; [by apply holds_update|]. intros ?.
  rewrite !not_elem_of_cons in H1. destruct H1 as (? & ? & ? & ? & ? & _).
  eapply hoare_bind.
  { apply holds_navigation_step. rewrite !not_elem_of_cons.
    repeat split; [done..|apply not_elem_of_nil]. }
  intros ?. eapply hoare_bind; [|intros ?; apply holds_logTrace].
  eapply hoare_bind; [apply holds_paint_step_own|]. intros ?.
  eapply hoare_bind; [by apply holds_paint_step_other|]. intros ?.
  by apply holds_first_input_delay_step.
Qed.

Lemma createOobTrace_body_first_contentful_paint
      navigationTimings paintTimings firstInputDelay r :
  NoDup [FIRST_PAINT_COUNTER_NAME; FIRST_CONTENTFUL_PAINT_COUNTER_NAME;
         FIRST_INPUT_DELAY_COUNTER_NAME; "domInteractive";
         "domContentLoadedEventEnd"; "loadEventEnd"] ->
  hoare (@counter_holds ApiState FIRST_CONTENTFUL_PAINT_COUNTER_NAME None r)
        (createOobTrace_body navigationTimings (Some paintTimings)
                             firstInputDelay)
        (fun _ c =>
           exists t, reports (world c) = r ++ [t]
                     /\ counters t !! FIRST_CONTENTFUL_PAINT_COUNTER_NAME
                        = paint_metric FIRST_CONTENTFUL_PAINT paintTimings).
Proof.
  intros Hnd. apply NoDup_cons in Hnd as [H1 Hnd].
  apply NoDup_cons in Hnd as [H2 Hnd].
  unfold createOobTrace_body.
  eapply hoare_bind; [apply holds_api_get|]. intros origin.
  eapply hoare_bind; [by apply holds_update|]. intros ?.
  rewrite !not_elem_of_cons in H1, H2.
  destruct H1 as (? & _), H2 as (? & ? & ? & ? & _).
  eapply hoare_bind.
  { apply holds_navigation_step. rewrite !not_elem_of_cons.
    repeat split; [done..|apply not_elem_of_nil]. }
  intros ?. eapply hoare_bind; [|intros ?; apply holds_logTrace].
  eapply hoare_bind; [by apply holds_paint_step_other|]. intros ?.
  eapply hoare_bind; [apply holds_paint_step_own|]. intros ?.
  by apply holds_first_input_delay_step.
Qed.

(** X16: the paint counters of the page-load trace.  When a route is at
    hand, the paint timings are present and the six counter names differ
    from one another, the reported trace has under the first-paint name the
    floor of a thousand times the start time of the first entry named
    [first-paint], added to 0, if there is such an entry and its start time
    is neither zero nor NaN, and no counter under that name otherwise (a
    later entry of the same name is not looked at); and likewise under the
    first-contentful-paint name for [first-contentful-paint]. *)
Theorem createOobTrace_paint_counters
        navigationTimings paintTimings firstInputDelay w :
  truthy_opt_string (api_getUrl (api w)) = true ->
  NoDup [FIRST_PAINT_COUNTER_NAME; FIRST_CONTENTFUL_PAINT_COUNTER_NAME;
         FIRST_INPUT_DELAY_COUNTER_NAME; "domInteractive";
         "domContentLoadedEventEnd"; "loadEventEnd"] ->
  exists t,
    reports (createOobTrace navigationTimings (Some paintTimings)
                            firstInputDelay w)
    = reports w ++ [t]
    /\ counters t !! FIRST_PAINT_COUNTER_NAME
       = paint_metric FIRST_PAINT paintTimings
    /\ counters t !! FIRST_CONTENTFUL_PAINT_COUNTER_NAME
       = paint_metric FIRST_CONTENTFUL_PAINT paintTimings.
Proof.
  intros Hroute Hnd. unfold createOobTrace. rewrite Hroute.
  cbn [negb]. rewrite new_Trace_auto. cbv beta iota zeta.
  match goal with
  | |- context [createOobTrace_body _ _ _ ?c] =>
      destruct (createOobTrace_body_first_paint
                  navigationTimings paintTimings firstInputDelay (reports w)
                  Hnd c) as (u & c' & E & t & Hr & Hfp);
        [split; [apply lookup_empty|reflexivity]|];
      destruct (createOobTrace_body_first_contentful_paint
                  navigationTimings paintTimings firstInputDelay (reports w)
                  Hnd c) as (u' & c'' & E' & t' & Hr' & Hfcp);
        [split; [apply lookup_empty|reflexivity]|]
  end.
  rewrite E in E'. injection E' as _ <-. rewrite E. cbn [snd].
  rewrite Hr in Hr'. apply app_inj_tail in Hr' as [_ <-].
  by exists t.
Qed.

(** *** Dictionaries that change hands *)

(** X17: [record] takes a copy of the attributes it is handed.  The
    trace then reads, under every name that is not inherited, exactly what
    the caller's dictionary held at the call;
    the caller's dictionary and the dictionary the trace had before are
    left as they were; and whatever the caller stores in its dictionary
    afterwards, the trace reads the same. *)
Theorem record_copies_attributes startTime duration options a c :
  options ≫= attributes = Some a ->
  a ∈ dom (heap (world c)) ->
  heap_wf c ->
  let c' := (record startTime duration options c).2 in
  (forall k, own_name k ->
             (getAttribute k c').1 = Normal (deref (heap (world c)) a !! k))
  /\ heap (world c') !! a = heap (world c) !! a
  /\ heap (world c') !! customAttributes (this c)
     = heap (world c) !! customAttributes (this c)
  /\ (forall o' k,
        (getAttribute k (heap_store a o' c').2).1 = (getAttribute k c').1).
Proof.
  intros Ea Ha Hwf. cbv zeta. rewrite record_eq. cbv zeta. rewrite Ea.
  cbn [snd this world heap set_heap set_reports].
  set (l := fresh (dom (heap (world c)))).
  assert (l <> a) as Hla.
  { intros Heq. apply (fresh_not_allocated (heap (world c))).
    fold l. by rewrite Heq. }
  assert (l <> customAttributes (this c)) as Hlc by (by apply heap_wf_fresh).
  assert (forall t, customAttributes
            match options ≫= metrics with
            | Some ms =>
                set_counters (store_metrics ms (Object_keys ms) (counters t)) t
            | None => t
            end = customAttributes t) as Hcs.
  { intros t. by destruct (options ≫= metrics). }
  split; [|split; [|split]].
  - intros k _. rewrite getAttribute_eq.
    cbn [fst this world heap set_heap set_reports]. rewrite Hcs.
    cbn [customAttributes set_customAttributes]. by rewrite deref_insert_eq.
  - by rewrite lookup_insert_ne.
  - by rewrite lookup_insert_ne.
  - intros o' k. unfold heap_store. rewrite !getAttribute_eq.
    cbn [fst snd this world heap set_heap set_reports]. rewrite Hcs.
    cbn [customAttributes set_customAttributes].
    by rewrite (deref_insert_ne _ a l), !deref_insert_eq.
Qed.

(** X18: [getAttributes] only reads the trace: it never throws, leaves
    the trace and every dictionary there is as they were, and does not
    touch clock or reports.  What it returns is a reference that was not in
    use, so that two calls in a row return two different objects. *)
Theorem getAttributes_reads_only c :
  let c' := (getAttributes c).2 in
  exists l l',
    (getAttributes c).1 = Normal l /\ (getAttributes c').1 = Normal l'
    /\ l <> l' /\ (l ∉ dom (heap (world c)))
    /\ this c' = this c
    /\ (forall l0, l0 ∈ dom (heap (world c)) ->
                   heap (world c') !! l0 = heap (world c) !! l0)
    /\ api (world c') = api (world c)
    /\ reports (world c') = reports (world c).
Proof.
  cbv zeta. rewrite !getAttributes_eq. cbn [fst snd this world heap set_heap].
  set (l := fresh (dom (heap (world c)))).
  pose proof (fresh_not_allocated (heap (world c))) as Hl. fold l in Hl.
  eexists l, _. split; [done|]. split; [done|].
  split; [|split; [done|split; [done|split; [|done]]]].
  - intros Heq.
    pose proof (fresh_not_allocated
                  (<[l := deref (heap (world c)) (customAttributes (this c))]>
                     (heap (world c)))) as Hl'.
    rewrite <- Heq in Hl'. apply Hl'. rewrite dom_insert_L. set_solver.
  - intros l0 Hl0. rewrite lookup_insert_ne; [done|]. by intros <-.
Qed.

Lemma run_calls_heap_wf calls c : heap_wf c -> heap_wf (run_calls calls c).
Proof.
  revert c. induction calls as [|call calls IH]; intros c Hwf; [done|].
  cbn [run_calls]. by apply IH, invoke_heap_wf.
Qed.

(** X19: the attribute dictionary of a trace is always there: from the
    constructor on and through any run of calls, caught errors and all,
    [customAttributes] refers to a dictionary that exists. *)
Theorem attributes_always_allocated n auto m w calls :
  let c := run_calls calls (mkConfig (new_Trace n auto m w).1
                                     (new_Trace n auto m w).2) in
  exists o, heap (world c) !! customAttributes (this c) = Some o.
Proof.
  cbv zeta. apply (elem_of_dom (D := gset loc)).
  apply run_calls_heap_wf.
  pose proof (new_Trace_heap_wf n auto m w) as H.
  destruct (new_Trace n auto m w) as [t w']. by destruct H.
Qed.
End TraceCoverage.

(** ** The model at work on the sample host *)

#[local] Existing Instance sample_builtins.
#[local] Existing Instance sample_constants.
#[local] Existing Instance sample_api.

(** C1, the code at the failing input: [putMetric("x", 3.7)] stores 3.7,
    which [getMetric("x")] returns, where the truncation of 3.7 is 3; and
    [incrementMetric("y", 0.5)] on a trace without [y] stores 0.5, which is
    no integer.  Neither method rounds, where [record] floors the metrics
    it stores. *)
Lemma putMetric_keeps_fraction :
  let c := (putMetric "x" 3.7%float sim_config0).2 in
  let c' := (incrementMetric "y" (Some 0.5%float) sim_config0).2 in
  (getMetric "x" c).1 = Normal 3.7%float
  /\ Math_trunc 3.7%float = 3%float
  /\ counters (this c) !! "x" <> Some (Math_trunc 3.7%float)
  /\ counters (this c') !! "y" = Some 0.5%float
  /\ Number_isInteger 0.5%float = false.
Proof.
  cbv zeta. split; [vm_compute; reflexivity|].
  split; [vm_compute; reflexivity|].
  split; [|split; vm_compute; reflexivity].
  intros H.
  assert (counters (this (putMetric "x" 3.7%float sim_config0).2) !! "x"
          = Some 3.7%float) as E by (vm_compute; reflexivity).
  rewrite E in H. float_discriminate H.
Qed.

(** [start] twice, and [stop] twice. *)
Lemma out_of_order_calls_throw_witness :
  state (this sim_running) <> UNINITIALIZED
  /\ start sim_running
     = (Throw (mkError TRACE_STARTED_BEFORE "t"), sim_running)
  /\ state (this sim_terminated) <> RUNNING
  /\ stop sim_terminated
     = (Throw (mkError TRACE_STOPPED_BEFORE "t"), sim_terminated).
Proof.
  assert (state (this sim_running) <> UNINITIALIZED) as H1
    by (vm_compute; discriminate).
  assert (state (this sim_terminated) <> RUNNING) as H2
    by (vm_compute; discriminate).
  split; [exact H1|].
  split; [exact (proj1 (out_of_order_calls_throw sim_running) H1)|].
  split; [exact H2|].
  exact (proj1 (proj2 (out_of_order_calls_throw sim_terminated)) H2).
Defined.

(** A metric set between [start] and [stop] leaves the trace running, and
    a second [start] after [stop] does not bring it back. *)
Lemma state_only_advances_witness :
  CallPutMetric "x" 1%float <> CallStart
  /\ CallPutMetric "x" 1%float <> CallStop
  /\ state (this (invoke (CallPutMetric "x" 1%float) sim_running).2) = RUNNING
  /\ (TraceState_value
        (state (this (run_calls [CallStart; CallStop] sim_config0)))
      <= TraceState_value
           (state (this (run_calls ([CallStart; CallStop] ++ [CallStart])
                                   sim_config0))))%Z.
Proof.
  assert (CallPutMetric "x" 1%float <> CallStart) as H1 by discriminate.
  assert (CallPutMetric "x" 1%float <> CallStop) as H2 by discriminate.
  split; [exact H1|]. split; [exact H2|]. split.
  - exact (proj1 (proj2 (state_only_advances sim_running)) _ H1 H2).
  - exact (proj2 (proj2 (state_only_advances sim_config0))
                 [CallStart; CallStop] [CallStart]).
Defined.

(** [stop] on the running sample trace: 12.3456 ms after a start at
    100.25 ms past the origin. *)
Lemma trace_metrics_from_measurement_witness :
  state (this sim_running) = RUNNING
  /\ durationUs (this (stop sim_running).2) = Some 12345%float
  /\ startTimeUs (this (stop sim_running).2) = Some 1500000000100250%float.
Proof.
  assert (state (this sim_running) = RUNNING) as H by (vm_compute; reflexivity).
  split; [exact H|].
  destruct (proj1 (proj2 (trace_metrics_from_measurement sim_running)) H)
    as (_ & Hfound & _).
  destruct (Hfound (mkEntry "FB-PERF-TRACE-MEASURE-123456-t" 100.25%float
                            (112.5956 - 100.25)%float) [])
    as [Hd Hs]; [vm_compute; reflexivity|].
  split.
  - rewrite Hd. vm_compute. reflexivity.
  - rewrite Hs. vm_compute. reflexivity.
Defined.

(** [record(1000, 250, {metrics: {m: 2.9}, attributes: {k: "v"}})]. *)
Lemma record_assigns_witness :
  let options :=
    Some (mkOptions (Some {["m" := JNumber 2.9%float]})
                    (Some sim_attributes)) in
  let c' := (record 1000%float 250%float options sim_config_caller).2 in
  options ≫= attributes = Some sim_attributes
  /\ options ≫= metrics = Some {["m" := JNumber 2.9%float]}
  /\ "m" <> "__proto__"
  /\ isNaN (ToNumber (JNumber 2.9%float)) = false
  /\ startTimeUs (this c') = Some 1000000%float
  /\ durationUs (this c') = Some 250000%float
  /\ (getMetric "m" c').1 = Normal 2%float
  /\ (getAttribute "k" c').1 = Normal (Some "v")
  /\ deref (heap (world c')) (customAttributes (this c')) = {["k" := "v"]}
  /\ reports (world c') = [this c'].
Proof.
  cbv zeta.
  set (ms := ({["m" := JNumber 2.9%float]} : gmap string JsValue)).
  set (options := Some (mkOptions (Some ms) (Some sim_attributes))).
  destruct (record_assigns 1000%float 250%float options sim_config_caller)
    as (_ & Hs & Hd & Ha & Hm & Hr).
  destruct (Ha sim_attributes eq_refl) as [_ Hattrs].
  assert ("m" <> "__proto__") as Hname by discriminate.
  specialize (Hm ms "m" (JNumber 2.9%float) eq_refl Hname eq_refl eq_refl).
  split; [reflexivity|]. split; [reflexivity|]. split; [exact Hname|].
  split; [reflexivity|].
  split; [rewrite Hs; vm_compute; reflexivity|].
  split; [rewrite Hd; vm_compute; reflexivity|].
  split; [rewrite getMetric_eq, Hm; vm_compute; reflexivity|].
  split; [rewrite getAttribute_eq; cbn [fst]; rewrite Hattrs;
          vm_compute; reflexivity|].
  split; [rewrite Hattrs; vm_compute; reflexivity|].
  rewrite Hr. reflexivity.
Defined.

(** [record] with [{m: "not-a-number", n: 7.9}]: [m] stays absent, [n]
    becomes 7. *)
Lemma record_drops_non_numeric_witness :
  let ms : gmap string JsValue :=
    {["m" := JString "not-a-number"; "n" := JNumber 7.9%float]} in
  let options := Some (mkOptions (Some ms) None) in
  let c' := (record 0%float 0%float options sim_config0).2 in
  options ≫= metrics = Some ms
  /\ "m" <> "__proto__" /\ "n" <> "__proto__"
  /\ counters (this sim_config0) !! "m" = None
  /\ counters (this c') !! "m" = None
  /\ counters (this c') !! "n" = Some 7%float.
Proof.
  cbv zeta.
  set (ms := ({["m" := JString "not-a-number"; "n" := JNumber 7.9%float]}
              : gmap string JsValue)).
  set (options := Some (mkOptions (Some ms) None)).
  destruct (record_drops_non_numeric 0%float 0%float options ms sim_config0
                                     eq_refl) as (_ & Hin & _ & _).
  assert ("m" <> "__proto__") as Hm by discriminate.
  assert ("n" <> "__proto__") as Hn by discriminate.
  split; [reflexivity|]. split; [exact Hm|]. split; [exact Hn|].
  split; [vm_compute; reflexivity|]. split.
  - rewrite (Hin "m" (JString "not-a-number") Hm)
      by (vm_compute; reflexivity).
    vm_compute. reflexivity.
  - rewrite (Hin "n" (JNumber 7.9%float) Hn) by (vm_compute; reflexivity).
    vm_compute. reflexivity.
Defined.

(** [stop] and then [record(5, 7)] on the running sample trace: the reporter
    gets the measured 12345 µs first and the recorded 7000 µs next. *)
Lemma record_ignores_state_witness :
  let c1 := (stop sim_running).2 in
  let c2 := (record 5%float 7%float None c1).2 in
  state (this sim_running) = RUNNING
  /\ (stop;; record 5%float 7%float None) sim_running = (Normal tt, c2)
  /\ reports (world c2) = [this c1; this c2]
  /\ durationUs (this c1) = Some 12345%float
  /\ durationUs (this c2) = Some 7000%float
  /\ state (this c2) = TERMINATED.
Proof.
  cbv zeta.
  assert (state (this sim_running) = RUNNING) as H by (vm_compute; reflexivity).
  destruct (proj2 (record_ignores_state 5%float 7%float None sim_running) H)
    as (Hrun & Hr & _ & Hs & _ & _ & _ & Hd).
  split; [exact H|]. split; [exact Hrun|]. split; [exact Hr|].
  split; [vm_compute; reflexivity|].
  split; [rewrite Hd; vm_compute; reflexivity|exact Hs].
Defined.

(** C8 fails as stated: with a route at hand, a first input delay of 100 ms
    is not recorded when the paint timings are missing, and one of 0 ms is
    not recorded even when they are there. *)
Lemma createOobTrace_first_input_delay_unrecorded :
  truthy_opt_string (api_getUrl (api sim_world0)) = true
  /\ (exists t,
        reports (createOobTrace (Some [sim_navigation]) None
                                (Some 100%float) sim_world0) = [t]
        /\ counters t !! FIRST_INPUT_DELAY_COUNTER_NAME = None)
  /\ (exists t,
        reports (createOobTrace (Some [sim_navigation]) (Some sim_paint)
                                (Some 0%float) sim_world0) = [t]
        /\ counters t !! FIRST_INPUT_DELAY_COUNTER_NAME = None).
Proof.
  split; [reflexivity|].
  split; eexists; (split; [vm_compute; reflexivity|vm_compute; reflexivity]).
Qed.

(** A page load with a first input delay of 12.3456 ms. *)
Lemma createOobTrace_first_input_delay_witness :
  truthy_opt_string (api_getUrl (api sim_world0)) = true
  /\ truthy_number 12.3456%float = true
  /\ (FIRST_INPUT_DELAY_COUNTER_NAME
       ∉ ["domInteractive"; "domContentLoadedEventEnd"; "loadEventEnd";
          FIRST_PAINT_COUNTER_NAME; FIRST_CONTENTFUL_PAINT_COUNTER_NAME])
  /\ exists t,
       reports (createOobTrace (Some [sim_navigation]) (Some sim_paint)
                               (Some 12.3456%float) sim_world0) = [t]
       /\ counters t !! "_fid" = Some 12345%float
       /\ counters t !! "_fp" = Some 301200%float
       /\ counters t !! "domInteractive" = Some 500%float.
Proof.
  assert (FIRST_INPUT_DELAY_COUNTER_NAME
            ∉ ["domInteractive"; "domContentLoadedEventEnd"; "loadEventEnd";
               FIRST_PAINT_COUNTER_NAME; FIRST_CONTENTFUL_PAINT_COUNTER_NAME])
    as Hne.
  { intros Hin. repeat (apply elem_of_cons in Hin as [Heq|Hin];
                        [discriminate Heq|]).
    by apply not_elem_of_nil in Hin. }
  assert (truthy_opt_string (api_getUrl (api sim_world0)) = true) as Hroute
    by reflexivity.
  assert (truthy_number 12.3456%float = true) as Hfid by reflexivity.
  split; [exact Hroute|]. split; [exact Hfid|]. split; [exact Hne|].
  destruct (createOobTrace_first_input_delay
              (Some [sim_navigation]) sim_paint 12.3456%float sim_world0
              Hroute Hfid Hne) as (t & Hr & Hc & _).
  exists t. split; [exact Hr|].
  split; [etrans; [exact Hc|vm_compute; reflexivity]|].
  assert (reports (createOobTrace (Some [sim_navigation]) (Some sim_paint)
                                  (Some 12.3456%float) sim_world0)
          !! 0%nat = Some t) as Ht by (by rewrite Hr).
  vm_compute in Ht. injection Ht as <-.
  split; vm_compute; reflexivity.
Defined.

(** The copy handed out after [putAttribute("a", "1")] on the new sample
    trace, overwritten by its receiver. *)
Lemma getAttributes_returns_copy_witness :
  let c1 := (putAttribute "a" "1" sim_config0).2 in
  let c2 := (getAttributes c1).2 in
  let c3 := (heap_store 2%positive {["a" := "changed"; "b" := "new"]} c2).2 in
  "a" <> "__proto__"
  /\ heap_wf sim_config0
  /\ (getAttributes c1).1 = Normal 2%positive
  /\ deref (heap (world c2)) 2%positive = {["a" := "1"]}
  /\ (getAttribute "a" c3).1 = Normal (Some "1")
  /\ (getAttribute "b" c3).1 = Normal None.
Proof.
  cbv zeta.
  assert (heap_wf sim_config0) as Hwf.
  { unfold heap_wf. apply elem_of_dom. eexists. vm_compute. reflexivity. }
  assert ("a" <> "__proto__") as Hname by discriminate.
  destruct (getAttributes_returns_copy "a" "1" sim_config0 Hname Hwf)
    as (l & Hl & _ & _ & Hempty & Hmut).
  assert (l = 2%positive) as ->.
  { assert ((getAttributes (putAttribute "a" "1" sim_config0).2).1
            = Normal 2%positive) as E by (vm_compute; reflexivity).
    rewrite E in Hl. by injection Hl. }
  destruct (Hmut {["a" := "changed"; "b" := "new"]}) as (_ & _ & Hget & _).
  split; [exact Hname|]. split; [exact Hwf|]. split; [exact Hl|].
  split; [apply Hempty; vm_compute; reflexivity|].
  split; rewrite Hget; vm_compute; reflexivity.
Defined.

(** [record(3, 4, {})] on a trace that has a metric and an attribute. *)
Lemma record_without_options_frame_witness :
  let c := (putMetric "x" 5%float;; putAttribute "a" "1") sim_config0 in
  let options := Some (mkOptions None None) in
  let c' := (record 3%float 4%float options c.2).2 in
  options ≫= attributes = None
  /\ options ≫= metrics = None
  /\ counters (this c') !! "x" = Some 5%float
  /\ (getAttribute "a" c').1 = Normal (Some "1")
  /\ startTimeUs (this c') = Some 3000%float
  /\ durationUs (this c') = Some 4000%float.
Proof.
  cbv zeta.
  set (c := ((putMetric "x" 5%float;; putAttribute "a" "1") sim_config0).2).
  destruct (record_without_options_frame 3%float 4%float
              (Some (mkOptions None None)) c eq_refl eq_refl)
    as (Ht & Hc & Ha & Hh & _).
  split; [reflexivity|]. split; [reflexivity|].
  split; [rewrite Hc; vm_compute; reflexivity|].
  split; [rewrite getAttribute_eq, Ha, Hh; vm_compute; reflexivity|].
  rewrite Ht. split; vm_compute; reflexivity.
Defined.

(** [incrementMetric("x")] twice and [incrementMetric("x", 5)] on a new
    trace count 1, 2 and 7; a metric that was never set reads 0. *)
Example incrementMetric_counts :
  let c1 := (incrementMetric "x" None sim_config0).2 in
  let c2 := (incrementMetric "x" None c1).2 in
  let c3 := (incrementMetric "x" (Some 5%float) c2).2 in
  (getMetric "x" c1).1 = Normal 1%float
  /\ (getMetric "x" c2).1 = Normal 2%float
  /\ (getMetric "x" c3).1 = Normal 7%float
  /\ (getMetric "y" c3).1 = Normal 0%float.
Proof. repeat split; vm_compute; reflexivity. Qed.

(** Without a route the page-load factory reports nothing. *)
Example createOobTrace_without_route :
  let w := set_api (mkSimApi 0%float 0%float None []) sim_world0 in
  createOobTrace (Some [sim_navigation]) (Some sim_paint) None w = w.
Proof. reflexivity. Qed.

(** The terminated sample trace, called four more times. *)
Lemma terminated_is_final_witness :
  let calls :=
    [CallStart; CallPutMetric "x" 1%float; CallStop;
     CallRecord 1%float 2%float None] in
  state (this sim_terminated) = TERMINATED
  /\ state (this (run_calls calls sim_terminated)) = TERMINATED
  /\ start (run_calls calls sim_terminated)
     = (Throw (mkError TRACE_STARTED_BEFORE "t"),
        run_calls calls sim_terminated).
Proof.
  cbv zeta.
  assert (state (this sim_terminated) = TERMINATED) as H
    by (vm_compute; reflexivity).
  destruct (terminated_is_final
              [CallStart; CallPutMetric "x" 1%float; CallStop;
               CallRecord 1%float 2%float None] sim_terminated H)
    as (Hs & Hstart & _).
  split; [exact H|]. split; [exact Hs|exact Hstart].
Defined.

(** The new sample trace, started and stopped. *)
Lemma start_then_stop_witness :
  state (this sim_config0) = UNINITIALIZED
  /\ ((start;; stop) sim_config0).1 = Normal tt
  /\ state (this ((start;; stop) sim_config0).2) = TERMINATED
  /\ length (reports (world ((start;; stop) sim_config0).2)) = 1%nat
  /\ (stop;; start) sim_config0
     = (Throw (mkError TRACE_STOPPED_BEFORE "t"), sim_config0).
Proof.
  assert (state (this sim_config0) = UNINITIALIZED) as H
    by (vm_compute; reflexivity).
  destruct (start_then_stop sim_config0 H)
    as (Hok & Hs & _ & Hr & _ & _ & _ & _ & Hthrow).
  split; [exact H|]. split; [exact Hok|]. split; [exact Hs|].
  split; [rewrite Hr; vm_compute; reflexivity|exact Hthrow].
Defined.

(** A page load without paint timings: the first input delay of 100 ms is
    passed over. *)
Lemma createOobTrace_navigation_only_witness :
  truthy_opt_string (api_getUrl (api sim_world0)) = true
  /\ exists t,
       reports (createOobTrace (Some [sim_navigation]) None
                               (Some 100%float) sim_world0) = [t]
       /\ durationUs t = Some 812500%float
       /\ counters t !! "domInteractive" = Some 500%float
       /\ counters t !! "loadEventEnd" = Some 810125%float
       /\ counters t !! "_fid" = None.
Proof.
  assert (truthy_opt_string (api_getUrl (api sim_world0)) = true) as Hroute
    by reflexivity.
  split; [exact Hroute|].
  destruct (createOobTrace_navigation_only
              (Some [sim_navigation]) (Some 100%float) sim_world0 Hroute)
    as (t & Hr & Hd & Hc).
  exists t. split; [exact Hr|].
  split; [rewrite Hd; vm_compute; reflexivity|].
  rewrite Hc. repeat split; vm_compute; reflexivity.
Defined.

(** A page load whose first [first-paint] entry has the start time 0: it
    is the one looked at, so there is no first-paint counter. *)
Lemma createOobTrace_paint_counters_witness :
  let paintTimings :=
    [mkEntry "first-paint" 0%float 0%float;
     mkEntry "first-paint" 5%float 0%float;
     mkEntry "first-contentful-paint" 355.75%float 0%float] in
  truthy_opt_string (api_getUrl (api sim_world0)) = true
  /\ NoDup [FIRST_PAINT_COUNTER_NAME; FIRST_CONTENTFUL_PAINT_COUNTER_NAME;
            FIRST_INPUT_DELAY_COUNTER_NAME; "domInteractive";
            "domContentLoadedEventEnd"; "loadEventEnd"]
  /\ exists t,
       reports (createOobTrace (Some [sim_navigation]) (Some paintTimings)
                               None sim_world0) = [t]
       /\ counters t !! "_fp" = None
       /\ counters t !! "_fcp" = Some 355750%float.
Proof.
  cbv zeta.
  assert (truthy_opt_string (api_getUrl (api sim_world0)) = true) as Hroute
    by reflexivity.
  assert (NoDup [FIRST_PAINT_COUNTER_NAME; FIRST_CONTENTFUL_PAINT_COUNTER_NAME;
                 FIRST_INPUT_DELAY_COUNTER_NAME; "domInteractive";
                 "domContentLoadedEventEnd"; "loadEventEnd"]) as Hnd.
  { apply (bool_decide_unpack _). vm_compute. exact I. }
  split; [exact Hroute|]. split; [exact Hnd|].
  destruct (createOobTrace_paint_counters
              (Some [sim_navigation])
              [mkEntry "first-paint" 0%float 0%float;
               mkEntry "first-paint" 5%float 0%float;
               mkEntry "first-contentful-paint" 355.75%float 0%float]
              None sim_world0 Hroute Hnd) as (t & Hr & Hfp & Hfcp).
  exists t. split; [exact Hr|]. split.
  - etrans; [exact Hfp|]. vm_compute. reflexivity.
  - etrans; [exact Hfcp|]. vm_compute. reflexivity.
Defined.

(** [record] with the caller's [{k: "v"}], which the caller then
    overwrites. *)
Lemma record_copies_attributes_witness :
  let options := Some (mkOptions None (Some sim_attributes)) in
  let c' := (record 1%float 2%float options sim_config_caller).2 in
  options ≫= attributes = Some sim_attributes
  /\ sim_attributes ∈ dom (heap (world sim_config_caller))
  /\ heap_wf sim_config_caller
  /\ own_name "k"
  /\ (getAttribute "k" c').1 = Normal (Some "v")
  /\ (getAttribute "k"
        (heap_store sim_attributes {["k" := "changed"]} c').2).1
     = Normal (Some "v").
Proof.
  cbv zeta.
  assert (sim_attributes ∈ dom (heap (world sim_config_caller))) as Ha.
  { apply elem_of_dom. eexists. vm_compute. reflexivity. }
  assert (heap_wf sim_config_caller) as Hwf.
  { unfold heap_wf. apply elem_of_dom. eexists. vm_compute. reflexivity. }
  destruct (record_copies_attributes
              1%float 2%float (Some (mkOptions None (Some sim_attributes)))
              sim_attributes sim_config_caller eq_refl Ha Hwf)
    as (Hget & _ & _ & Hlater).
  assert (own_name "k") as Hk
    by (apply (bool_decide_unpack _); vm_compute; exact I).
  split; [reflexivity|]. split; [exact Ha|]. split; [exact Hwf|].
  split; [exact Hk|].
  split; [rewrite (Hget "k" Hk); vm_compute; reflexivity|].
  rewrite Hlater, (Hget "k" Hk). vm_compute. reflexivity.
Defined.

(** [putAttribute("a", "1")] and then [putAttribute("a", "2")] on the new
    sample trace. *)
Lemma putAttribute_then_getAttribute_witness :
  let c' := (putAttribute "a" "1" sim_config0).2 in
  "a" <> "__proto__"
  /\ (getAttribute "a" c').1 = Normal (Some "1")
  /\ (getAttribute "b" c').1 = Normal None
  /\ (getAttribute "a" (putAttribute "a" "2" c').2).1 = Normal (Some "2").
Proof.
  cbv zeta.
  assert ("a" <> "__proto__") as Hname by discriminate.
  destruct (putAttribute_then_getAttribute "a" "1" sim_config0 Hname)
    as (Hget & Hother & Hagain & _).
  split; [exact Hname|]. split; [exact Hget|]. split.
  - rewrite (Hother "b") by discriminate. vm_compute. reflexivity.
  - rewrite (Hagain "2"). vm_compute. reflexivity.
Defined.

(** [removeAttribute("a")] on the sample trace, before and after
    [putAttribute("a", "1")]. *)
Lemma removeAttribute_removes_witness :
  let c1 := (putAttribute "a" "1" sim_config0).2 in
  own_name "a"
  /\ (removeAttribute "a" sim_config0).2 = sim_config0
  /\ (getAttribute "a" c1).1 = Normal (Some "1")
  /\ (getAttribute "a" (removeAttribute "a" c1).2).1 = Normal None.
Proof.
  cbv zeta.
  assert (own_name "a") as Hname
    by (apply (bool_decide_unpack _); vm_compute; exact I).
  destruct (removeAttribute_removes "a" sim_config0 Hname)
    as (_ & Hnoop & _).
  destruct (removeAttribute_removes
              "a" (putAttribute "a" "1" sim_config0).2 Hname)
    as (_ & _ & Hgone & _).
  split; [exact Hname|].
  split; [apply Hnoop; vm_compute; reflexivity|].
  split; [vm_compute; reflexivity|exact Hgone].
Defined.

(** [getMetric("x")] on the sample trace: without the counter, and with a
    counter that holds NaN. *)
Lemma getMetric_answers_a_number_witness :
  own_name "x"
  /\ getMetric "x" sim_config0 = (Normal 0%float, sim_config0)
  /\ (getMetric "x" (putMetric "x" nan sim_config0).2).1 = Normal 0%float.
Proof.
  assert (own_name "x") as Hname
    by (apply (bool_decide_unpack _); vm_compute; exact I).
  destruct (getMetric_answers_a_number "x" sim_config0 Hname)
    as (r & Hr & _ & _ & Habsent & _).
  destruct (getMetric_answers_a_number
              "x" (putMetric "x" nan sim_config0).2 Hname)
    as (r' & Hr' & _ & _ & _ & Hheld).
  split; [exact Hname|]. split.
  - rewrite Hr. rewrite (Habsent eq_refl). reflexivity.
  - rewrite Hr'. cbn [fst]. rewrite (Hheld nan) by (vm_compute; reflexivity).
    vm_compute. reflexivity.
Defined.

(** [putMetric("x", 2.5)] and an increment by 4 on the sample trace. *)
Lemma metric_mutators_compose_witness :
  own_name "x"
  /\ counters
       (this (incrementMetric "x" (Some 4%float)
                (putMetric "x" 2.5%float sim_config0).2).2) !! "x"
     = Some 6.5%float
  /\ counters
       (this (incrementMetric "x" (Some 4%float)
                (incrementMetric "x" (Some 2.5%float) sim_config0).2).2)
       !! "x"
     = Some 6.5%float.
Proof.
  assert (own_name "x") as Hname
    by (apply (bool_decide_unpack _); vm_compute; exact I).
  destruct (metric_mutators_compose
              "x" 2.5%float 0%float 2.5%float 4%float (Some 4%float)
              sim_config0 Hname) as (Hput & Hinc & _).
  split; [exact Hname|]. split.
  - rewrite Hput. vm_compute. reflexivity.
  - rewrite Hinc. vm_compute. reflexivity.
Defined.

(** Two traces made one after the other on the sample host. *)
Lemma traces_do_not_share_attributes_witness :
  let t1 := (new_Trace "t1" None None sim_world0).1 in
  let w1 := (new_Trace "t1" None None sim_world0).2 in
  let t2 := (new_Trace "t2" None None w1).1 in
  let w2 := (new_Trace "t2" None None w1).2 in
  own_name "a"
  /\ customAttributes t1 <> customAttributes t2
  /\ (getAttribute "a" (putAttribute "a" "1" (mkConfig t2 w2)).2).1
     = Normal (Some "1")
  /\ (getAttribute "a"
        (mkConfig t1 (world (putAttribute "a" "1" (mkConfig t2 w2)).2))).1
     = Normal None.
Proof.
  cbv zeta.
  assert (own_name "a") as Hname
    by (apply (bool_decide_unpack _); vm_compute; exact I).
  destruct (traces_do_not_share_attributes
              "t1" None None "t2" None None sim_world0 "a" "1" Hname)
    as (Hne & Hother & _).
  split; [exact Hname|]. split; [exact Hne|].
  split; [vm_compute; reflexivity|exact Hother].
Defined.
